(** * ventas_contador: the sales dashboard pipeline of [app.py]

    A shallow embedding of the data-transformation part of [app.py]
    (normalise the date column, filter, aggregate, classify, summary
    scalars) and the properties of its specification.

    Modelling conventions.
    - A pandas [DataFrame] is an ordered list of column names plus a list of
      rows; a row maps column names to cells.  pandas stores a frame by
      column, the row layout used here is observationally the same for the
      operations of [app.py] (column read, column assignment, boolean-mask
      row selection, group-by).
    - A cell is a string, an integer, a number, a timestamp, a monthly
      period or a missing value (NaN / NaT / None).
    - Numbers are exact rationals [Q]: sums are exact, as they are in pandas
      for integer columns and for float columns whose partial sums are
      representable.  NaN is a separate value of [PyFloat].
    - Python strings are [string]s holding UTF-8 bytes; [str.lower],
      [str.strip] and [str.capitalize] are modelled on their ASCII range,
      which decides the comparisons the program makes (['fecha'],
      ['nuevo']); a column name padded with blanks outside ASCII is outside
      the model.
    - A frame is a mutable object: frames live in a [Store] and the
      functions of [app.py] take and return references into it.  A raised
      exception keeps the store as it was when the exception was raised.
    - A figure is the data it plots, in plotting order, and a document is
      the list of flowables handed to reportlab.  Of drawing, the model
      keeps what decides whether a chart is made: a bar plot of an empty
      series and a plot of a table without columns are refused by pandas
      with an exception.  The pixels and the PDF bytes are outside the
      model.
    - [pd.to_datetime] on text and the month names of the locale come from
      the platform: they are parameters of [procesar_datos]. *)

From Stdlib Require Import Ascii String QArith Qround.
From stdpp Require Import base option list gmap strings pretty sorting.

Open Scope string_scope.
Open Scope Z_scope.
Open Scope list_scope.

(** ** Python strings *)

Module PyStr.

(** [str.isspace] on the ASCII range: TAB, LF, VT, FF, CR, FS, GS, RS, US
    and SPACE. *)
Definition is_space (a : ascii) : bool :=
  let n := nat_of_ascii a in
  ((9 <=? n)%nat && (n <=? 13)%nat) || ((28 <=? n)%nat && (n <=? 32)%nat).

Definition lower_ascii (a : ascii) : ascii :=
  let n := nat_of_ascii a in
  if ((65 <=? n)%nat && (n <=? 90)%nat)%bool then ascii_of_nat (n + 32) else a.

Definition upper_ascii (a : ascii) : ascii :=
  let n := nat_of_ascii a in
  if ((97 <=? n)%nat && (n <=? 122)%nat)%bool then ascii_of_nat (n - 32) else a.

Fixpoint lower (s : string) : string :=
  match s with
  | EmptyString => EmptyString
  | String a t => String (lower_ascii a) (lower t)
  end.

Fixpoint lstrip (s : string) : string :=
  match s with
  | EmptyString => EmptyString
  | String a t => if is_space a then lstrip t else s
  end.

Fixpoint srev_onto (s acc : string) : string :=
  match s with
  | EmptyString => acc
  | String a t => srev_onto t (String a acc)
  end.

Definition srev (s : string) : string := srev_onto s EmptyString.

Definition rstrip (s : string) : string := srev (lstrip (srev s)).

(** [s.strip()] *)
Definition strip (s : string) : string := rstrip (lstrip s).

(** [s.capitalize()]: first character upper-cased, the rest lower-cased. *)
Definition capitalize (s : string) : string :=
  match s with
  | EmptyString => EmptyString
  | String a t => String (upper_ascii a) (lower t)
  end.

(** [needle in hay] *)
Fixpoint contains (needle hay : string) : bool :=
  String.prefix needle hay ||
  match hay with
  | EmptyString => false
  | String _ t => contains needle t
  end.

End PyStr.

(** ** Cells, rows and frames *)

(** A [pd.Timestamp]: calendar fields and the nanoseconds elapsed within the
    day.  Timestamps compare by their instant, which is the lexicographic
    order of these fields. *)
Record Timestamp := mkTs {
  ts_year : Z;
  ts_month : Z;
  ts_day : Z;
  ts_nanos : Z
}.

Definition ts_compare (a b : Timestamp) : comparison :=
  match ts_year a ?= ts_year b with
  | Eq =>
      match ts_month a ?= ts_month b with
      | Eq =>
          match ts_day a ?= ts_day b with
          | Eq => ts_nanos a ?= ts_nanos b
          | c => c
          end
      | c => c
      end
  | c => c
  end.

(** [a <= b] on timestamps *)
Definition ts_leb (a b : Timestamp) : bool :=
  match ts_compare a b with Gt => false | _ => true end.

Inductive Cell :=
| VStr (s : string)
| VInt (z : Z)
| VNum (q : Q)
| VTime (t : Timestamp)
| VPeriod (y m : Z)
| VNull.

#[global] Instance Q_eq_dec : EqDecision Q.
Proof. solve_decision. Defined.
#[global] Instance Timestamp_eq_dec : EqDecision Timestamp.
Proof. solve_decision. Defined.
#[global] Instance Cell_eq_dec : EqDecision Cell.
Proof. solve_decision. Defined.

Definition is_null (c : Cell) : bool :=
  match c with VNull => true | _ => false end.

Abbreviation Row := (gmap string Cell).

Record DataFrame := mkDF {
  columns : list string;
  rows : list Row
}.

(** The cell of row [r] in column [c] (a missing value where the row has no
    entry). *)
Definition cell (c : string) (r : Row) : Cell := default VNull (r !! c).

(** ** Exceptions and the store *)

Inductive Exn :=
| KeyError (k : string)
| IndexError
| TypeError
| AttributeError
| ValueError.

Inductive Res (A : Type) :=
| Ok (a : A)
| Raise (e : Exn).
Arguments Ok {A} a.
Arguments Raise {A} e.

#[global] Instance Res_ret : MRet Res := fun _ a => Ok a.
#[global] Instance Res_bind : MBind Res := fun _ _ f m =>
  match m with Ok a => f a | Raise e => Raise e end.
#[global] Instance Res_fmap : FMap Res := fun _ _ f m =>
  match m with Ok a => Ok (f a) | Raise e => Raise e end.

(** [mapM] for [Res]: the first failure is the one raised. *)
Fixpoint traverse {A B} (f : A → Res B) (l : list A) : Res (list B) :=
  match l with
  | [] => Ok []
  | x :: t => y ← f x; ys ← traverse f t; Ok (y :: ys)
  end.

(** Object references and the store of frames. *)
Abbreviation Store := (list DataFrame).

Definition M (A : Type) : Type := Store → Res A * Store.

#[global] Instance M_ret : MRet M := fun _ a σ => (Ok a, σ).
#[global] Instance M_bind : MBind M := fun _ _ f m σ =>
  match m σ with
  | (Ok a, σ') => f a σ'
  | (Raise e, σ') => (Raise e, σ')
  end.

Definition lift {A} (r : Res A) : M A := fun σ => (r, σ).

(** Dereference; a dangling reference does not arise in [app.py]. *)
Definition deref (l : nat) : M DataFrame := fun σ =>
  match σ !! l with
  | Some df => (Ok df, σ)
  | None => (Raise ValueError, σ)
  end.

Definition assign (l : nat) (df : DataFrame) : M unit := fun σ =>
  (Ok tt, <[l := df]> σ).

Definition alloc (df : DataFrame) : M nat := fun σ =>
  (Ok (length σ), σ ++ [df]).

(** ** Frame operations *)

(** [df[c]]: the column as a series of cells. *)
Definition getitem (df : DataFrame) (c : string) : Res (list Cell) :=
  if bool_decide (c ∈ columns df) then Ok (cell c <$> rows df)
  else Raise (KeyError c).

(** [df[c] = vs]: overwrite column [c] where it exists, append it as the last
    column where it does not. *)
Definition setitem (df : DataFrame) (c : string) (vs : list Cell) : Res DataFrame :=
  if bool_decide (length vs = length (rows df)) then
    Ok {| columns := if bool_decide (c ∈ columns df) then columns df
                     else columns df ++ [c];
          rows := zip_with (fun r v => <[c := v]> r) (rows df) vs |}
  else Raise ValueError.

(** [df[mask]]: the rows at which the mask holds, in order. *)
Fixpoint select {A} (mask : list bool) (l : list A) : list A :=
  match mask, l with
  | b :: mask', x :: l' => if b then x :: select mask' l' else select mask' l'
  | _, _ => []
  end.

Definition df_get (l : nat) (c : string) : M (list Cell) :=
  df ← deref l; lift (getitem df c).

Definition df_set (l : nat) (c : string) (vs : list Cell) : M unit :=
  df ← deref l; df' ← lift (setitem df c vs); assign l df'.

(** [series.dt.<field>]: defined on datetime series only; NaT gives NaN. *)
Definition dt_field (f : Timestamp → Cell) (c : Cell) : Res Cell :=
  match c with
  | VTime t => Ok (f t)
  | VNull => Ok VNull
  | _ => Raise AttributeError
  end.

Definition dt_month : list Cell → Res (list Cell) :=
  traverse (dt_field (fun t => VInt (ts_month t))).
Definition dt_year : list Cell → Res (list Cell) :=
  traverse (dt_field (fun t => VInt (ts_year t))).
Definition dt_to_period_M : list Cell → Res (list Cell) :=
  traverse (dt_field (fun t => VPeriod (ts_year t) (ts_month t))).

(** [series.isin(vals)] *)
Definition isin (vals : list Cell) (s : list Cell) : list bool :=
  (fun c => bool_decide (c ∈ vals)) <$> s.

(** [series >= t] and [series <= t] against a timestamp: NaT compares
    false, a cell that is no timestamp is a type error. *)
Definition ge_ts (t : Timestamp) : list Cell → Res (list bool) :=
  traverse (fun c => match c with
                     | VTime u => Ok (ts_leb t u)
                     | VNull => Ok false
                     | _ => Raise TypeError
                     end).
Definition le_ts (t : Timestamp) : list Cell → Res (list bool) :=
  traverse (fun c => match c with
                     | VTime u => Ok (ts_leb u t)
                     | VNull => Ok false
                     | _ => Raise TypeError
                     end).

(** [a & b] on boolean series *)
Definition band (a b : list bool) : list bool := zip_with andb a b.

(** ** [procesar_datos] and [filtrar_datos] *)

Section Pipeline.

(** What the platform supplies: the month names of the locale set by
    [locale.setlocale] ([calendar.month_name]) and the conversion of one
    string or number by [pd.to_datetime]. *)
Variable month_name : Z → string.
Variable parse_datetime : Cell → option Timestamp.

Definition to_datetime_cell (c : Cell) : Res Cell :=
  match c with
  | VTime t => Ok (VTime t)
  | VNull => Ok VNull
  | VPeriod _ _ => Raise TypeError
  | _ => match parse_datetime c with
         | Some t => Ok (VTime t)
         | None => Raise ValueError
         end
  end.

Definition to_datetime : list Cell → Res (list Cell) :=
  traverse to_datetime_cell.

(** [lambda x: calendar.month_name[x].capitalize()]; a NaN month is no
    list index. *)
Definition mes_nombre (x : Cell) : Res Cell :=
  match x with
  | VInt m => Ok (VStr (PyStr.capitalize (month_name m)))
  | _ => Raise TypeError
  end.

(** [[col for col in df.columns if col.strip().lower() == 'fecha']] *)
Definition cols_fecha (cols : list string) : list string :=
  List.filter (fun col => String.eqb (PyStr.lower (PyStr.strip col)) "fecha") cols.

(** [l[0]] *)
Definition first {A} (l : list A) : Res A :=
  match l with
  | x :: _ => Ok x
  | [] => Raise IndexError
  end.

(** Lines 14-22. *)
Definition procesar_datos (df : nat) : M nat :=
  d ← deref df;
  col_fecha ← lift (first (cols_fecha (columns d)));
  s ← df_get df col_fecha;
  s ← lift (to_datetime s);
  df_set df col_fecha s;;
  s ← df_get df col_fecha;
  df_set df "Fecha" s;;
  s ← df_get df "Fecha";
  s ← lift (dt_month s);
  df_set df "Mes" s;;
  s ← df_get df "Fecha";
  s ← lift (dt_month s);
  s ← lift (traverse mes_nombre s);
  df_set df "Mes_Nombre" s;;
  s ← df_get df "Fecha";
  s ← lift (dt_year s);
  df_set df "Año" s;;
  s ← df_get df "Fecha";
  s ← lift (dt_to_period_M s);
  df_set df "Periodo" s;;
  mret df.

End Pipeline.

(** Lines 24-30. *)
Definition filtrar_datos (df : nat) (clientes_seleccionados categorias_seleccionadas : list Cell)
    (fecha_inicio fecha_fin : Timestamp) : M nat :=
  c ← df_get df "cliente";
  let m1 := isin clientes_seleccionados c in
  c ← df_get df "categoria";
  let m2 := isin categorias_seleccionadas c in
  f ← df_get df "Fecha";
  m3 ← lift (ge_ts fecha_inicio f);
  f ← df_get df "Fecha";
  m4 ← lift (le_ts fecha_fin f);
  d ← deref df;
  alloc {| columns := columns d;
           rows := select (band (band (band m1 m2) m3) m4) (rows d) |}.

(** ** Aggregation *)

(** [series.unique()]: the distinct values in order of first appearance. *)
Fixpoint unique (l : list Cell) : list Cell :=
  match l with
  | [] => []
  | x :: t => x :: List.filter (fun y => negb (bool_decide (y = x))) (unique t)
  end.

Definition kind_rank (c : Cell) : Z :=
  match c with
  | VNull => 0
  | VInt _ => 1
  | VNum _ => 2
  | VStr _ => 3
  | VTime _ => 4
  | VPeriod _ _ => 5
  end.

(** The order in which pandas sorts group keys: strings by code point,
    numbers by value, timestamps and periods chronologically.  A key column
    holds one kind of value; across kinds the order is by kind, which only
    makes the comparison total. *)
Definition cell_leb (a b : Cell) : bool :=
  match a, b with
  | VStr s, VStr t => String.leb s t
  | VInt x, VInt y => x <=? y
  | VNum x, VNum y => Qle_bool x y
  | VTime t, VTime u => ts_leb t u
  | VPeriod y m, VPeriod y' m' => (y <? y') || ((y =? y') && (m <=? m'))
  | _, _ => kind_rank a <=? kind_rank b
  end.

Definition cell_le (a b : Cell) : Prop := cell_leb a b.

#[global] Instance cell_le_dec : RelDecision cell_le.
Proof. intros a b. unfold cell_le. apply _. Defined.

(** The numeric value of a cell under [sum]; missing values are skipped. *)
Definition num_of_cell (c : Cell) : Res Q :=
  match c with
  | VInt z => Ok (inject_Z z)
  | VNum q => Ok q
  | VNull => Ok 0%Q
  | _ => Raise TypeError
  end.

Definition Qsum (l : list Q) : Q := foldr Qplus 0%Q l.

(** [series.sum()] *)
Definition series_sum (s : list Cell) : Res Q :=
  qs ← traverse num_of_cell s; Ok (Qred (Qsum qs)).

(** The rows of the group of key [k]. *)
Definition group (key : string) (k : Cell) (rs : list Row) : list Row :=
  List.filter (fun r => bool_decide (cell key r = k)) rs.

Definition notnull (c : string) (r : Row) : bool := negb (is_null (cell c r)).

(** [df.groupby(key)[val].sum()]: one entry per distinct key that is not
    missing, keys sorted, each with the sum of [val] over its rows. *)
Definition groupby_sum (df : DataFrame) (key val : string) : Res (list (Cell * Q)) :=
  ks ← getitem df key;
  _ ← getitem df val;
  let keys := merge_sort cell_le (unique (List.filter (fun k => negb (is_null k)) ks)) in
  traverse (fun k => s ← series_sum (cell val <$> group key k (rows df)); Ok (k, s)) keys.

(** [series.sort_values(ascending=False)]; the order among equal values is
    not fixed by pandas. *)
Definition sort_values_desc (s : list (Cell * Q)) : list (Cell * Q) :=
  merge_sort (fun a b => Qle_bool (snd b) (snd a)) s.

(** [series.mean()]: NaN for an empty series. *)
Inductive PyFloat :=
| Fin (q : Q)
| NaN.

Definition series_mean (s : list Q) : PyFloat :=
  match s with
  | [] => NaN
  | _ => Fin (Qred (Qsum s / inject_Z (Z.of_nat (length s))))
  end.

(** [df.pivot_table(index=i, columns=c, values=v, aggfunc='sum')]: rows
    labelled by the sorted distinct values of [i], columns by the sorted
    distinct values of [c], an empty entry where a pair has no row. *)
Record PivotTable := mkPivot {
  pt_index : list Cell;
  pt_columns : list Cell;
  pt_values : list (list (option Q))
}.

Definition pivot_table_sum (df : DataFrame) (i c v : string) : Res PivotTable :=
  _ ← getitem df v;
  _ ← getitem df i;
  _ ← getitem df c;
  let rs := List.filter (fun r => notnull i r && notnull c r) (rows df) in
  let idx := merge_sort cell_le (unique (cell i <$> rs)) in
  let cols := merge_sort cell_le (unique (cell c <$> rs)) in
  vals ← traverse (fun ki =>
            traverse (fun kc =>
              match group c kc (group i ki rs) with
              | [] => Ok None
              | g => s ← series_sum (cell v <$> g); Ok (Some s)
              end) cols) idx;
  Ok {| pt_index := idx; pt_columns := cols; pt_values := vals |}.

(** [series.value_counts()]: the count of every distinct value that is not
    missing, most frequent first. *)
Definition count_of (k : Cell) (s : list Cell) : nat :=
  length (List.filter (fun c => bool_decide (c = k)) s).

Definition value_counts (s : list Cell) : list (Cell * nat) :=
  let s' := List.filter (fun k => negb (is_null k)) s in
  merge_sort (fun a b => bool_decide (snd b ≤ snd a)%nat)
             ((fun k => (k, count_of k s')) <$> unique s').

(** ** [generar_graficos] *)

(** [lambda x: 'Nuevo' if 'nuevo' in str(x).lower() else 'Frecuente'].  The
    text of a cell that is no string (a number, a date, nan) has none of the
    letters of ['nuevo']. *)
Definition tipo_proveedor (x : Cell) : Cell :=
  match x with
  | VStr s => if PyStr.contains "nuevo" (PyStr.lower s) then VStr "Nuevo" else VStr "Frecuente"
  | _ => VStr "Frecuente"
  end.

(** A figure is kept as what it draws: kind, title and the plotted data in
    plotting order. *)
Inductive ChartData :=
| Bars (s : list (Cell * Q))
| GroupedBars (t : PivotTable)
| Pie (s : list (Cell * nat)).

Record Figure := mkFig {
  fig_kind : string;
  fig_title : string;
  fig_data : ChartData
}.

(** [crear_figura], lines 37-44: [df_group.plot(kind=tipo, ...)] on fresh
    axes.  Every call of [app.py] passes ['bar'], and pandas' bar plot
    cannot draw a series without entries: it takes the first of the bar
    positions, an [IndexError].  Labels, rotation and layout do not change
    what is drawn. *)
Definition crear_figura (df_group : list (Cell * Q)) (tipo title : string) : Res Figure :=
  match df_group with
  | [] => Raise IndexError
  | _ => Ok {| fig_kind := tipo; fig_title := title; fig_data := Bars df_group |}
  end.

(** [table.plot(kind='bar', ...)] of line 52: a table without columns has
    no numeric data to plot, a [TypeError]. *)
Definition plot_table (t : PivotTable) (tipo title : string) : Res Figure :=
  match pt_columns t with
  | [] => Raise TypeError
  | _ => Ok {| fig_kind := tipo; fig_title := title; fig_data := GroupedBars t |}
  end.

Definition df_groupby_sum (l : nat) (key val : string) : M (list (Cell * Q)) :=
  d ← deref l; lift (groupby_sum d key val).

(** Lines 32-65.  Each figure is drawn as soon as its data is computed,
    so a chart that cannot be drawn stops the function before the data of
    the next one is looked up.  The pie is reached only once the four bar
    charts were drawn, that is on a dataset with a record, where the class
    counts are not empty. *)
Definition generar_graficos (df : nat) : M (list (string * Figure)) :=
  c ← df_get df "categoria";
  df_set df "Tipo Proveedor" (tipo_proveedor <$> c);;
  g1 ← df_groupby_sum df "Periodo" "venta";
  f1 ← lift (crear_figura g1 "bar" "Total de Compras por Mes");
  g2 ← df_groupby_sum df "cliente" "venta";
  f2 ← lift (crear_figura (sort_values_desc g2) "bar" "Ventas por Cliente");
  g3 ← df_groupby_sum df "categoria" "venta";
  f3 ← lift (crear_figura (sort_values_desc g3) "bar" "Ventas por Categoría");
  g4 ← df_groupby_sum df "Año" "venta";
  f4 ← lift (crear_figura g4 "bar" "Total Ventas por Año");
  d ← deref df;
  pt ← lift (pivot_table_sum d "Mes_Nombre" "Año" "venta");
  fig5 ← lift (plot_table pt "bar" "Comparativa Mensual Año a Año");
  tp ← df_get df "Tipo Proveedor";
  let fig2 := {| fig_kind := "pie"; fig_title := "Distribución Tipo Proveedor";
                 fig_data := Pie (value_counts tp) |} in
  mret [("compras_mensuales", f1); ("ventas_cliente", f2); ("ventas_categoria", f3);
        ("totales_anuales", f4); ("comparacion_anual", fig5); ("tipo_proveedor", fig2)].

(** ** Summary scalars and their display *)

Record Metricas := mkMetricas {
  total : Q;
  iva : Q;
  neto : Q;
  ticket_promedio : PyFloat
}.

(** Lines 115-118 of [app.py]. *)
Definition metricas (df_filtrado : nat) : M Metricas :=
  v ← df_get df_filtrado "venta";
  total ← lift (series_sum v);
  let iva := (total * (19 # 100))%Q in
  let neto := (total - iva)%Q in
  g ← df_groupby_sum df_filtrado "cliente" "venta";
  let ticket_promedio := series_mean (snd <$> g) in
  mret {| total := total; iva := iva; neto := neto; ticket_promedio := ticket_promedio |}.

(** Python's [round(x)] to an integer: ties go to the even neighbour. *)
Definition round_half_even (q : Q) : Z :=
  let f := Qfloor q in
  match (q - inject_Z f ?= 1 # 2)%Q with
  | Lt => f
  | Gt => f + 1
  | Eq => if Z.even f then f else f + 1
  end.


Fixpoint group3 (n : nat) (s : string) : string :=
  match s with
  | EmptyString => EmptyString
  | String a t =>
      if (n =? 3)%nat then String "," (String a (group3 1 t))
      else String a (group3 (S n) t)
  end.

(** Digits with a comma between groups of three, counted from the right. *)
Definition thousands (digits : string) : string :=
  PyStr.srev (group3 0 (PyStr.srev digits)).

(** [format(x, ',.2f')] *)
Definition format_2f (x : PyFloat) : string :=
  match x with
  | NaN => "nan"
  | Fin q =>
      let c := Z.abs (round_half_even (q * 100)) in
      let cents := c mod 100 in
      (if Qle_bool 0 q then "" else "-") +:+ thousands (pretty (c / 100)) +:+ "." +:+
      (if cents <? 10 then "0" else "") +:+ pretty cents
  end.

(** [f"${x:,.2f}"] *)
Definition money (x : PyFloat) : string := "$" +:+ format_2f x.

(** The three [st.metric] calls of lines 121-123: label and shown value. *)
Definition mostrar_metricas (m : Metricas) : list (string * string) :=
  [("🧾 Total Ventas", money (Fin (total m)));
   ("💵 Neto", money (Fin (neto m)));
   ("📈 Ticket Promedio", money (ticket_promedio m))].

(** The summary paragraph of the report, lines 130-137. *)
Definition resumen_texto (m : Metricas) : string :=
  "
        Este informe presenta un análisis detallado de las ventas, categorizadas por cliente, tipo de proveedor y periodo mensual/anual.
        <br/><br/>
        <b>Total:</b> " +:+ money (Fin (total m)) +:+ "<br/>
        <b>IVA (19%):</b> " +:+ money (Fin (iva m)) +:+ "<br/>
        <b>Neto:</b> " +:+ money (Fin (neto m)) +:+ "<br/>
        <b>Ticket Promedio por Cliente:</b> " +:+ money (ticket_promedio m) +:+ "
        ".

(** ** Example data *)

(** The month names of the [es_ES] locale, as [calendar.month_name] lists
    them there. *)
Definition month_name_es (m : Z) : string :=
  match m with
  | 1 => "enero" | 2 => "febrero" | 3 => "marzo" | 4 => "abril"
  | 5 => "mayo" | 6 => "junio" | 7 => "julio" | 8 => "agosto"
  | 9 => "septiembre" | 10 => "octubre" | 11 => "noviembre" | 12 => "diciembre"
  | _ => ""
  end.

(** A converter that accepts no text: the example tables hold dates. *)
Definition no_parse (_ : Cell) : option Timestamp := None.

Definition fecha (y m d : Z) : Timestamp := mkTs y m d 0.

Definition fila (f : Timestamp) (cliente categoria : string) (venta : Z) : Row :=
  list_to_map [(" Fecha ", VTime f); ("cliente", VStr cliente);
               ("categoria", VStr categoria); ("venta", VInt venta)].

(** The two records of the specification's example. *)
Definition df_ejemplo : DataFrame :=
  {| columns := [" Fecha "; "cliente"; "categoria"; "venta"];
     rows := [fila (fecha 2023 1 15) "A" "Nuevo Proveedor" 100;
              fila (fecha 2023 2 20) "B" "Proveedor X" 200] |}.

Definition flujo_ejemplo : M (Metricas * list (string * Figure)) :=
  df ← procesar_datos month_name_es no_parse 0%nat;
  f ← filtrar_datos df [VStr "A"; VStr "B"] [VStr "Nuevo Proveedor"; VStr "Proveedor X"]
        (fecha 2023 1 1) (fecha 2023 12 31);
  m ← metricas f;
  figs ← generar_graficos f;
  mret (m, figs).

(** ** Predicates, derived frames and example data used in the statements *)

Definition has_column (c : string) (df : DataFrame) : bool :=
  bool_decide (c ∈ columns df).

(** The cells a datetime column holds: timestamps and NaT. *)
Definition is_datetime (c : Cell) : bool :=
  match c with VTime _ | VNull => true | _ => false end.

Definition datetime_column (c : string) (df : DataFrame) : bool :=
  forallb (fun r => is_datetime (cell c r)) (rows df).

(** [t0 <= c <= t1], false for NaT. *)
Definition between (t0 t1 : Timestamp) (c : Cell) : bool :=
  match c with
  | VTime u => ts_leb t0 u && ts_leb u t1
  | _ => false
  end.

(** The three predicates of the filter on one record. *)
Definition keeps (cs cats : list Cell) (t0 t1 : Timestamp) (r : Row) : bool :=
  bool_decide (cell "cliente" r ∈ cs) && bool_decide (cell "categoria" r ∈ cats)
  && between t0 t1 (cell "Fecha" r).

(** The frame [filtrar_datos] builds. *)
Definition filtrado (cs cats : list Cell) (t0 t1 : Timestamp) (df : DataFrame) : DataFrame :=
  {| columns := columns df; rows := List.filter (keeps cs cats t0 t1) (rows df) |}.

Definition is_numeric (c : Cell) : bool :=
  match c with VInt _ | VNum _ | VNull => true | _ => false end.

Definition numeric_column (c : string) (df : DataFrame) : bool :=
  forallb (fun r => is_numeric (cell c r)) (rows df).

(** No record has a missing value in column [c]. *)
Definition no_missing (c : string) (df : DataFrame) : bool :=
  forallb (notnull c) (rows df).

(** What a cell adds to a sum. *)
Definition qval (c : Cell) : Q :=
  match c with VInt z => inject_Z z | VNum q => q | _ => 0%Q end.

(** The keys of [df.groupby(key)]. *)
Definition group_keys (key : string) (df : DataFrame) : list Cell :=
  merge_sort cell_le (unique (List.filter (fun k => negb (is_null k)) (cell key <$> rows df))).

(** The scalars of a frame whose [venta] column is numeric. *)
Definition escalares (df : DataFrame) : Metricas :=
  let total := Qred (Qsum (qval <$> (cell "venta" <$> rows df))) in
  let iva := (total * (19 # 100))%Q in
  {| total := total;
     iva := iva;
     neto := (total - iva)%Q;
     ticket_promedio :=
       series_mean ((fun k => Qred (Qsum (qval <$> (cell "venta" <$> group "cliente" k (rows df)))))
                      <$> group_keys "cliente" df) |}.

(** A sale of 99.99. *)
Definition df_decimal : DataFrame :=
  {| columns := ["cliente"; "venta"];
     rows := [list_to_map [("cliente", VStr "A"); ("venta", VNum (9999 # 100))]] |}.


(** The frame after [df[c] = f(row)] for every row. *)
Definition set_col (c : string) (f : Row → Cell) (df : DataFrame) : DataFrame :=
  {| columns := if bool_decide (c ∈ columns df) then columns df else columns df ++ [c];
     rows := (fun r => <[c := f r]> r) <$> rows df |}.

Definition is_time (c : Cell) : bool :=
  match c with VTime _ => true | _ => false end.

(** Every cell of column [c] is a timestamp. *)
Definition time_column (c : string) (df : DataFrame) : bool :=
  forallb (fun r => is_time (cell c r)) (rows df).

(** A calendar field of a timestamp cell. *)
Definition dt (g : Timestamp → Cell) (c : Cell) : Cell :=
  match c with VTime t => g t | _ => VNull end.

Section NormalizerDefs.

Variable month_name : Z → string.
Variable parse_datetime : Cell → option Timestamp.

(** What [pd.to_datetime] makes of a cell it accepts. *)
Definition conv (c : Cell) : Cell :=
  match to_datetime_cell parse_datetime c with
  | Ok v => v
  | Raise _ => VNull
  end.

(** Every cell of column [c] converts to a timestamp. *)
Definition convertible (c : string) (df : DataFrame) : bool :=
  forallb (fun r => is_time (conv (cell c r))) (rows df).

Definition el_mes (t : Timestamp) : Cell := VInt (ts_month t).
Definition el_mes_nombre (t : Timestamp) : Cell :=
  VStr (PyStr.capitalize (month_name (ts_month t))).
Definition el_año (t : Timestamp) : Cell := VInt (ts_year t).
Definition el_periodo (t : Timestamp) : Cell := VPeriod (ts_year t) (ts_month t).

(** The frame [procesar_datos] leaves behind when the date column is
    [c]. *)
Definition normalizado (c : string) (df : DataFrame) : DataFrame :=
  set_col "Periodo" (fun r => dt el_periodo (cell "Fecha" r))
    (set_col "Año" (fun r => dt el_año (cell "Fecha" r))
       (set_col "Mes_Nombre" (fun r => dt el_mes_nombre (cell "Fecha" r))
          (set_col "Mes" (fun r => dt el_mes (cell "Fecha" r))
             (set_col "Fecha" (cell c)
                (set_col c (fun r => conv (cell c r)) df))))).

End NormalizerDefs.


(** A computation that leaves the store as it found it. *)
Definition readonly {A} (m : M A) : Prop := ∀ σ, (m σ).2 = σ.

(** The classification column of a frame. *)
Definition con_tipo_proveedor (df : DataFrame) : DataFrame :=
  set_col "Tipo Proveedor" (fun r => tipo_proveedor (cell "categoria" r)) df.

(** A filtered dataset as the chart builder needs it: the columns it reads
    are there and the amounts are numbers. *)
Definition dataset_ok (df : DataFrame) : bool :=
  forallb (fun c => has_column c df)
          ["categoria"; "Periodo"; "cliente"; "venta"; "Año"; "Mes_Nombre"]
  && numeric_column "venta" df.

(** Every chart has something to draw: some record has a period, some a
    client, some a category, some a year, and some record has both a month
    name and a year. *)
Definition graficable (df : DataFrame) : bool :=
  forallb (fun key => existsb (notnull key) (rows df))
          ["Periodo"; "cliente"; "categoria"; "Año"]
  && existsb (fun r => notnull "Mes_Nombre" r && notnull "Año" r) (rows df).

(** Every key column the dataset has holds a value in some record: the
    bar chart of that key has a bar to draw. *)
Definition con_barras (df : DataFrame) : bool :=
  forallb (fun key => negb (has_column key df) || existsb (notnull key) (rows df))
          ["Periodo"; "cliente"; "categoria"; "Año"].

(** The cells of a column of strings; missing values allowed. *)
Definition string_column (c : string) (df : DataFrame) : bool :=
  forallb (fun r => match cell c r with VStr _ | VNull => true | _ => false end) (rows df).

(** The labels [pivot_table] gives axis [i] when the other axis is [c]. *)
Definition pivot_axis (i c : string) (df : DataFrame) : list Cell :=
  merge_sort cell_le
    (unique (cell i <$> List.filter (fun r => notnull i r && notnull c r) (rows df))).

(** Sales in January and in April of the same year. *)
Definition df_meses : DataFrame :=
  {| columns := [" Fecha "; "cliente"; "categoria"; "venta"];
     rows := [fila (fecha 2023 1 10) "A" "Proveedor X" 100;
              fila (fecha 2023 4 5) "B" "Proveedor X" 200] |}.

Definition flujo_meses : M (list (string * Figure)) :=
  df ← procesar_datos month_name_es no_parse 0%nat;
  f ← filtrar_datos df [VStr "A"; VStr "B"] [VStr "Proveedor X"]
        (fecha 2023 1 1) (fecha 2023 12 31);
  generar_graficos f.

(** The month axis of a figure drawn from a pivot table. *)
Definition eje_meses (f : Figure) : list Cell :=
  match fig_data f with
  | GroupedBars t => pt_index t
  | _ => []
  end.

(** The example after [procesar_datos]. *)
Definition df_normalizado : DataFrame :=
  normalizado month_name_es no_parse " Fecha " df_ejemplo.

Definition df_meses_normalizado : DataFrame :=
  normalizado month_name_es no_parse " Fecha " df_meses.

Definition todas_categorias : list Cell := [VStr "Nuevo Proveedor"; VStr "Proveedor X"].

(** The example filtered with no client selected. *)
Definition df_sin_clientes : DataFrame :=
  filtrado [] todas_categorias (fecha 2023 1 1) (fecha 2023 12 31) df_normalizado.

(** ** The rest of [app.py]: the default selection and [generar_pdf] *)

Definition ts_min (a b : Timestamp) : Timestamp := if ts_leb a b then a else b.
Definition ts_max (a b : Timestamp) : Timestamp := if ts_leb a b then b else a.

(** [series.min()] of a datetime series (line 105): the earliest timestamp,
    NaT skipped; [None] is the NaT of a series without a timestamp. *)
Fixpoint series_min (s : list Cell) : option Timestamp :=
  match s with
  | [] => None
  | VTime t :: s' => Some (match series_min s' with Some m => ts_min t m | None => t end)
  | _ :: s' => series_min s'
  end.

(** [series.max()] *)
Fixpoint series_max (s : list Cell) : option Timestamp :=
  match s with
  | [] => None
  | VTime t :: s' => Some (match series_max s' with Some m => ts_max t m | None => t end)
  | _ :: s' => series_max s'
  end.

(** A paragraph style of the sample style sheet: its name and alignment. *)
Record Style := mkStyle {
  style_name : string;
  alignment : Z
}.

(** The flowables [generar_pdf] puts in the document. *)
Inductive Flowable :=
| Paragraph (text : string) (style : Style)
| Spacer (width height : Z)
| Image (fig : Figure) (width height : Z).

(** [styles['Title']] after [estilo_titulo.alignment = 1], and
    [styles['Normal']], left-aligned. *)
Definition estilo_titulo : Style := {| style_name := "Title"; alignment := 1 |}.
Definition estilo_normal : Style := {| style_name := "Normal"; alignment := 0 |}.

(** Lines 67-85: the name of the file written and the flowables handed to
    [doc.build], built as the code builds them, by appending.  The loop
    runs over the figures in the order they were put in the dictionary. *)
Definition generar_pdf (nombre_archivo : string) (df : nat) (figs : list (string * Figure))
    (resumen_texto : string) : string * list Flowable :=
  let elements := [Paragraph "📄 Informe Contable Detallado" estilo_titulo; Spacer 1 12] in
  let elements := elements ++ [Paragraph resumen_texto estilo_normal] in
  let elements := elements ++ [Spacer 1 12] in
  let elements :=
    fold_left (fun elements kf => (elements ++ [Image (snd kf) 450 250]) ++ [Spacer 1 12])
              figs elements in
  (nombre_archivo, elements).

(** The figures embedded in a document, in document order. *)
Definition imagenes (elements : list Flowable) : list Figure :=
  omap (fun e => match e with Image f _ _ => Some f | _ => None end) elements.

(** Lines 115-140 for one filtered dataset: scalars, figures, summary text
    and the document. *)
Definition informe (df_filtrado : nat) : M (string * list Flowable) :=
  m ← metricas df_filtrado;
  figs ← generar_graficos df_filtrado;
  mret (generar_pdf "informe_contable.pdf" df_filtrado figs (resumen_texto m)).

Section Tablero.

Variable month_name : Z → string.
Variable parse_datetime : Cell → option Timestamp.

(** Lines 96-125 for an uploaded table and a selection: normalise, filter,
    scalars, figures.  The result names the filtered dataset. *)
Definition tablero (df : nat) (clientes_seleccionados categorias_seleccionadas : list Cell)
    (fecha_inicio fecha_fin : Timestamp) : M (nat * Metricas * list (string * Figure)) :=
  df ← procesar_datos month_name parse_datetime df;
  df_filtrado ← filtrar_datos df clientes_seleccionados categorias_seleccionadas
                  fecha_inicio fecha_fin;
  m ← metricas df_filtrado;
  figs ← generar_graficos df_filtrado;
  mret (df_filtrado, m, figs).

End Tablero.

(** A record that has both a client and a category. *)
Definition con_cliente_y_categoria (r : Row) : bool :=
  notnull "cliente" r && notnull "categoria" r.

(** A string of blanks. *)
Fixpoint blanks (s : string) : bool :=
  match s with
  | EmptyString => true
  | String a t => PyStr.is_space a && blanks t
  end.

Definition is_ok {A} (r : Res A) : bool :=
  match r with Ok _ => true | Raise _ => false end.

(** The cells of a column of monthly periods, of integers. *)
Definition period_column (c : string) (df : DataFrame) : bool :=
  forallb (fun r => match cell c r with VPeriod _ _ | VNull => true | _ => false end) (rows df).
Definition int_column (c : string) (df : DataFrame) : bool :=
  forallb (fun r => match cell c r with VInt _ | VNull => true | _ => false end) (rows df).

(** Months in chronological order. *)
Definition period_lt (a b : Z * Z) : Prop := a.1 < b.1 ∨ (a.1 = b.1 ∧ a.2 < b.2).





Section NormalizerPartial.

Variable parse_datetime : Cell → option Timestamp.

(** Every cell of column [c] is accepted by [pd.to_datetime]. *)
Definition accepted (c : string) (df : DataFrame) : bool :=
  forallb (fun r => is_ok (to_datetime_cell parse_datetime (cell c r))) (rows df).

(** The table as lines 16-18 leave it: date column converted, [Fecha] and
    [Mes] set. *)
Definition parcial (c : string) (df : DataFrame) : DataFrame :=
  set_col "Mes" (fun r => dt el_mes (cell "Fecha" r))
    (set_col "Fecha" (cell c)
       (set_col c (fun r => conv parse_datetime (cell c r)) df)).

End NormalizerPartial.




(** Sales in two years, normalised. *)
Definition df_dos_años : DataFrame :=
  normalizado month_name_es no_parse " Fecha "
    {| columns := [" Fecha "; "cliente"; "categoria"; "venta"];
       rows := [fila (fecha 2023 1 15) "A" "Nuevo Proveedor" 100;
                fila (fecha 2022 3 10) "B" "Proveedor X" 200] |}.

(** A normalised table that has no client column. *)
Definition df_sin_columna_cliente : DataFrame :=
  normalizado month_name_es no_parse " Fecha "
    {| columns := [" Fecha "; "categoria"; "venta"];
       rows := [list_to_map [(" Fecha ", VTime (fecha 2023 1 15));
                             ("categoria", VStr "Proveedor X"); ("venta", VInt 100)]] |}.

(** A table whose date column holds text. *)
Definition df_texto : DataFrame :=
  {| columns := ["Fecha"; "cliente"; "categoria"; "venta"];
     rows := [list_to_map [("Fecha", VStr "15/01/2023"); ("cliente", VStr "A");
                           ("categoria", VStr "Proveedor X"); ("venta", VInt 100)]] |}.

(** A table with an empty date cell in its second row. *)
Definition df_fecha_vacia : DataFrame :=
  {| columns := [" Fecha "; "cliente"; "categoria"; "venta"];
     rows := [fila (fecha 2023 1 15) "A" "Nuevo Proveedor" 100;
              list_to_map [(" Fecha ", VNull); ("cliente", VStr "B");
                           ("categoria", VStr "Proveedor X"); ("venta", VInt 200)]] |}.

(** * Properties *)

(** ** Running the store monad *)

Lemma bind_run {A B} (m : M A) (f : A → M B) σ :
  (m ≫= f) σ =
  match m σ with
  | (Ok a, σ') => f a σ'
  | (Raise e, σ') => (Raise e, σ')
  end.
Proof. reflexivity. Qed.

Lemma deref_run σ l df : σ !! l = Some df → deref l σ = (Ok df, σ).
Proof. intros H. unfold deref. by rewrite H. Qed.

Lemma getitem_ok df c : has_column c df = true → getitem df c = Ok (cell c <$> rows df).
Proof. unfold has_column, getitem. by intros ->. Qed.

Lemma df_get_run σ l df c :
  σ !! l = Some df → has_column c df = true →
  df_get l c σ = (Ok (cell c <$> rows df), σ).
Proof.
  intros Hl Hc. unfold df_get. rewrite bind_run, (deref_run _ _ _ Hl).
  unfold lift. by rewrite getitem_ok.
Qed.

Lemma traverse_ok {A B} (f : A → Res B) (g : A → B) (l : list A) :
  Forall (fun x => f x = Ok (g x)) l → traverse f l = Ok (g <$> l).
Proof.
  induction 1 as [|x l Hx _ IH]; [done|].
  cbn [traverse]. rewrite Hx. cbn. rewrite IH. done.
Qed.

(** ** The filter *)

Lemma ts_leb_refl t : ts_leb t t = true.
Proof. unfold ts_leb, ts_compare. by rewrite !Z.compare_refl. Qed.

Lemma ge_ts_ok t0 (c : string) (rs : list Row) :
  forallb (fun r => is_datetime (cell c r)) rs = true →
  ge_ts t0 (cell c <$> rs) =
  Ok ((fun r => match cell c r with VTime u => ts_leb t0 u | _ => false end) <$> rs).
Proof.
  intros H. unfold ge_ts.
  rewrite (traverse_ok _ (fun x => match x with VTime u => ts_leb t0 u | _ => false end)).
  - by rewrite <- list_fmap_compose.
  - apply Forall_fmap, Forall_forall. intros r Hr.
    rewrite forallb_forall in H. specialize (H r). rewrite <- list_elem_of_In in H.
    specialize (H Hr). cbn. by destruct (cell c r).
Qed.

Lemma le_ts_ok t1 (c : string) (rs : list Row) :
  forallb (fun r => is_datetime (cell c r)) rs = true →
  le_ts t1 (cell c <$> rs) =
  Ok ((fun r => match cell c r with VTime u => ts_leb u t1 | _ => false end) <$> rs).
Proof.
  intros H. unfold le_ts.
  rewrite (traverse_ok _ (fun x => match x with VTime u => ts_leb u t1 | _ => false end)).
  - by rewrite <- list_fmap_compose.
  - apply Forall_fmap, Forall_forall. intros r Hr.
    rewrite forallb_forall in H. specialize (H r). rewrite <- list_elem_of_In in H.
    specialize (H Hr). cbn. by destruct (cell c r).
Qed.

Lemma select_masks {A} (f1 f2 f3 f4 : A → bool) (l : list A) :
  select (band (band (band (f1 <$> l) (f2 <$> l)) (f3 <$> l)) (f4 <$> l)) l =
  List.filter (fun x => f1 x && f2 x && f3 x && f4 x) l.
Proof.
  induction l as [|x l IH]; [done|].
  cbn. unfold band in IH. rewrite IH. done.
Qed.

Lemma filtrar_datos_run σ l df cs cats t0 t1 :
  σ !! l = Some df →
  has_column "cliente" df = true →
  has_column "categoria" df = true →
  has_column "Fecha" df = true →
  datetime_column "Fecha" df = true →
  filtrar_datos l cs cats t0 t1 σ = (Ok (length σ), σ ++ [filtrado cs cats t0 t1 df]).
Proof.
  intros Hl H1 H2 H3 Hd. unfold filtrar_datos.
  rewrite bind_run, (df_get_run _ _ _ _ Hl H1).
  rewrite bind_run, (df_get_run _ _ _ _ Hl H2).
  rewrite bind_run, (df_get_run _ _ _ _ Hl H3).
  rewrite bind_run. unfold lift at 1. rewrite (ge_ts_ok _ _ _ Hd).
  rewrite bind_run, (df_get_run _ _ _ _ Hl H3).
  rewrite bind_run. unfold lift at 1. rewrite (le_ts_ok _ _ _ Hd).
  rewrite bind_run, (deref_run _ _ _ Hl).
  unfold alloc, filtrado, isin. do 2 f_equal. f_equal.
  rewrite <- !list_fmap_compose, select_masks. f_equal.
  apply List.filter_ext. intros r. unfold keeps, between, compose.
  destruct (cell "Fecha" r); cbn; by rewrite <- ?andb_assoc, ?andb_false_r.
Qed.

Lemma filtrado_preserves cs cats t0 t1 df c :
  has_column c (filtrado cs cats t0 t1 df) = has_column c df.
Proof. done. Qed.

Lemma filtrado_datetime cs cats t0 t1 df c :
  datetime_column c df = true → datetime_column c (filtrado cs cats t0 t1 df) = true.
Proof.
  unfold datetime_column, filtrado. cbn. rewrite !forallb_forall.
  intros H r Hr. apply H. apply List.filter_In in Hr. tauto.
Qed.

Lemma filter_filter_same {A} (f : A → bool) (l : list A) :
  List.filter f (List.filter f l) = List.filter f l.
Proof.
  induction l as [|x l IH]; [done|].
  cbn. destruct (f x) eqn:E; cbn; rewrite ?E, IH; done.
Qed.

Lemma filter_sublist {A} (f : A → bool) (l : list A) : List.filter f l `sublist_of` l.
Proof.
  induction l as [|x l IH]; [constructor|].
  cbn. destruct (f x); by constructor.
Qed.

(** C1. On a normalised dataset (columns [cliente], [categoria] and a
    datetime [Fecha]) held at [l], [filtrar_datos] never raises: it allocates
    one new frame and leaves every existing frame as it was.  The new frame
    has the columns of the input and exactly the input rows that satisfy
    the three predicates (client in the allowed set, category in the allowed
    set, date in the closed interval), in their input order; a record dated
    exactly at either end of the interval is kept.  An empty allowed set
    gives a frame without rows. *)
Theorem filtrar_datos_subsequence σ l df cs cats t0 t1 :
  σ !! l = Some df →
  has_column "cliente" df = true →
  has_column "categoria" df = true →
  has_column "Fecha" df = true →
  datetime_column "Fecha" df = true →
  ∃ out,
    filtrar_datos l cs cats t0 t1 σ = (Ok (length σ), σ ++ [out]) ∧
    columns out = columns df ∧
    rows out = List.filter (keeps cs cats t0 t1) (rows df) ∧
    rows out `sublist_of` rows df ∧
    (∀ r, r ∈ rows out ↔
       r ∈ rows df ∧ cell "cliente" r ∈ cs ∧ cell "categoria" r ∈ cats ∧
       ∃ u, cell "Fecha" r = VTime u ∧ ts_leb t0 u = true ∧ ts_leb u t1 = true) ∧
    (ts_leb t0 t1 = true →
     ∀ r, r ∈ rows df → cell "cliente" r ∈ cs → cell "categoria" r ∈ cats →
          cell "Fecha" r = VTime t0 ∨ cell "Fecha" r = VTime t1 → r ∈ rows out) ∧
    (cs = [] ∨ cats = [] → rows out = []).
Proof.
  intros Hl H1 H2 H3 Hd. exists (filtrado cs cats t0 t1 df).
  split; [by apply filtrar_datos_run|].
  split; [done|]. split; [done|]. split; [apply filter_sublist|].
  assert (Hin : ∀ r, r ∈ rows (filtrado cs cats t0 t1 df) ↔
       r ∈ rows df ∧ cell "cliente" r ∈ cs ∧ cell "categoria" r ∈ cats ∧
       ∃ u, cell "Fecha" r = VTime u ∧ ts_leb t0 u = true ∧ ts_leb u t1 = true).
  { intros r. cbn. rewrite list_elem_of_In, List.filter_In, <- list_elem_of_In.
    unfold keeps, between. rewrite !andb_true_iff, !bool_decide_eq_true.
    split.
    + intros (Hr & (Hc & Hk) & Hf). repeat split; try done.
      destruct (cell "Fecha" r); try done.
      apply andb_true_iff in Hf as [??]. eauto.
    + intros (Hr & Hc & Hk & u & -> & Hu1 & Hu2). by rewrite Hu1, Hu2. }
  split; [done|]. split.
  - intros Hle r Hr Hc Hk Hf. apply Hin. repeat split; try done.
    destruct Hf as [Hf|Hf]; rewrite Hf; eexists; (split; [done|]);
      by rewrite ?ts_leb_refl.
  - intros Hempty. clear Hin. cbn.
    assert (Hk : ∀ r, keeps cs cats t0 t1 r = false).
    { intros r. unfold keeps.
      destruct Hempty as [-> | ->];
        rewrite (bool_decide_eq_false_2 (_ ∈ [])) by apply not_elem_of_nil;
        by rewrite ?andb_false_r. }
    induction (rows df) as [|r rs IH]; [done|]. cbn. by rewrite Hk.
Qed.

(** C9. Filtering the result of [filtrar_datos] again with the same
    criteria gives a frame equal to the one filtered once. *)
Theorem filtrar_datos_idempotent σ l df cs cats t0 t1 :
  σ !! l = Some df →
  has_column "cliente" df = true →
  has_column "categoria" df = true →
  has_column "Fecha" df = true →
  datetime_column "Fecha" df = true →
  ∃ once,
    (l1 ← filtrar_datos l cs cats t0 t1;
     l2 ← filtrar_datos l1 cs cats t0 t1;
     mret (l1, l2)) σ
    = (Ok (length σ, S (length σ)), σ ++ [once; once]).
Proof.
  intros Hl H1 H2 H3 Hd. exists (filtrado cs cats t0 t1 df).
  rewrite bind_run, (filtrar_datos_run _ _ _ _ _ _ _ Hl H1 H2 H3 Hd).
  assert (Hl' : (σ ++ [filtrado cs cats t0 t1 df]) !! length σ
                = Some (filtrado cs cats t0 t1 df)).
  { rewrite lookup_app_r by lia. by rewrite Nat.sub_diag. }
  rewrite bind_run, (filtrar_datos_run _ _ _ _ _ _ _ Hl');
    try done; [|by apply filtrado_datetime].
  cbn. rewrite length_app. cbn. rewrite Nat.add_1_r. f_equal.
  rewrite <- app_assoc. cbn. do 3 f_equal.
  unfold filtrado. cbn. by rewrite filter_filter_same.
Qed.

(** ** Sums and groups *)










Lemma unique_elem_of (l : list Cell) (x : Cell) : x ∈ unique l ↔ x ∈ l.
Proof.
  induction l as [|y l IH]; [done|]. cbn.
  rewrite !elem_of_cons, list_elem_of_In, List.filter_In, <- list_elem_of_In, IH.
  rewrite negb_true_iff, bool_decide_eq_false.
  destruct (decide (x = y)); tauto.
Qed.

Lemma unique_NoDup (l : list Cell) : NoDup (unique l).
Proof.
  induction l as [|y l IH]; [constructor|]. cbn. constructor.
  - rewrite list_elem_of_In, List.filter_In, negb_true_iff, bool_decide_eq_false.
    tauto.
  - rewrite NoDup_ListNoDup. apply List.NoDup_filter. by rewrite <- NoDup_ListNoDup.
Qed.

Lemma series_sum_ok (cs : list Cell) :
  forallb is_numeric cs = true → series_sum cs = Ok (Qred (Qsum (qval <$> cs))).
Proof.
  intros H. unfold series_sum. rewrite (traverse_ok _ qval); [done|].
  apply Forall_forall. intros c Hc. rewrite forallb_forall in H.
  specialize (H c). rewrite <- list_elem_of_In in H. specialize (H Hc).
  by destruct c.
Qed.

Lemma numeric_group (val key : string) (k : Cell) (rs : list Row) :
  forallb (fun r => is_numeric (cell val r)) rs = true →
  forallb is_numeric (cell val <$> group key k rs) = true.
Proof.
  rewrite !forallb_forall. intros H c Hc.
  rewrite <- list_elem_of_In in Hc. apply list_elem_of_fmap in Hc as (r & -> & Hr).
  apply H. rewrite list_elem_of_In in Hr. apply List.filter_In in Hr. tauto.
Qed.

Lemma groupby_sum_ok df key val :
  has_column key df = true → has_column val df = true →
  numeric_column val df = true →
  groupby_sum df key val =
  Ok ((fun k => (k, Qred (Qsum (qval <$> (cell val <$> group key k (rows df))))))
        <$> group_keys key df).
Proof.
  intros Hk Hv Hn. unfold groupby_sum.
  rewrite (getitem_ok _ _ Hk), (getitem_ok _ _ Hv). cbn.
  apply traverse_ok, Forall_forall. intros k _.
  by rewrite series_sum_ok by (by apply numeric_group).
Qed.

Lemma group_keys_NoDup key df : NoDup (group_keys key df).
Proof.
  unfold group_keys. rewrite merge_sort_Permutation. apply unique_NoDup.
Qed.

Lemma group_keys_elem_of key df k :
  k ∈ group_keys key df ↔ k ≠ VNull ∧ ∃ r, r ∈ rows df ∧ cell key r = k.
Proof.
  unfold group_keys. rewrite merge_sort_Permutation, unique_elem_of.
  rewrite list_elem_of_In, List.filter_In, <- list_elem_of_In, list_elem_of_fmap.
  rewrite negb_true_iff. split.
  - intros [(r & -> & Hr) Hnull]. split; [by destruct (cell key r)|eauto].
  - intros [Hne (r & Hr & <-)]. split; [eauto|]. by destruct (cell key r).
Qed.





Lemma df_groupby_sum_run σ l df key val :
  σ !! l = Some df → df_groupby_sum l key val σ = (groupby_sum df key val, σ).
Proof. intros Hl. unfold df_groupby_sum. by rewrite bind_run, (deref_run _ _ _ Hl). Qed.

Lemma numeric_series (val : string) (rs : list Row) :
  forallb (fun r => is_numeric (cell val r)) rs = true →
  forallb is_numeric (cell val <$> rs) = true.
Proof. induction rs as [|r rs IH]; [done|]. cbn. by intros [-> ?]%andb_true_iff; auto. Qed.

Lemma metricas_run σ l df :
  σ !! l = Some df →
  has_column "venta" df = true → has_column "cliente" df = true →
  numeric_column "venta" df = true →
  metricas l σ = (Ok (escalares df), σ).
Proof.
  intros Hl Hv Hc Hn. unfold metricas.
  rewrite bind_run, (df_get_run _ _ _ _ Hl Hv).
  rewrite bind_run. unfold lift at 1. rewrite series_sum_ok by (by apply numeric_series).
  rewrite bind_run, (df_groupby_sum_run _ _ _ _ _ Hl), groupby_sum_ok by done.
  unfold escalares, mret, M_ret. do 3 f_equal.
  by rewrite <- (list_fmap_compose _ snd).
Qed.




(** ** The tax and net scalars *)







(** ** The average ticket *)






(** ** Column assignment *)

Lemma zip_with_fmap_same {A B C} (g : A → B → C) (f : A → B) (l : list A) :
  zip_with g l (f <$> l) = (fun x => g x (f x)) <$> l.
Proof. induction l as [|x l IH]; [done|]. cbn. by rewrite IH. Qed.

Lemma setitem_fmap df c (f : Row → Cell) :
  setitem df c (f <$> rows df) = Ok (set_col c f df).
Proof.
  unfold setitem. rewrite length_fmap, bool_decide_eq_true_2 by done.
  unfold set_col. by rewrite zip_with_fmap_same.
Qed.

Lemma df_set_run σ l df c (f : Row → Cell) :
  σ !! l = Some df →
  df_set l c (f <$> rows df) σ = (Ok tt, <[l := set_col c f df]> σ).
Proof.
  intros Hl. unfold df_set.
  rewrite bind_run, (deref_run _ _ _ Hl), bind_run.
  unfold lift. by rewrite setitem_fmap.
Qed.

Lemma store_insert_lookup (σ : list DataFrame) l df df' :
  σ !! l = Some df → <[l := df']> σ !! l = Some df'.
Proof. intros H. apply list_lookup_insert_eq. by apply lookup_lt_Some in H. Qed.

Lemma store_insert_insert (σ : list DataFrame) l df df' :
  <[l := df']> (<[l := df]> σ) = <[l := df']> σ.
Proof. apply list_insert_insert_eq. Qed.

Lemma cell_insert_eq c v (r : Row) : cell c (<[c := v]> r) = v.
Proof. unfold cell. by rewrite lookup_insert_eq. Qed.

Lemma cell_insert_ne c c' v (r : Row) : c ≠ c' → cell c' (<[c := v]> r) = cell c' r.
Proof. intros H. unfold cell. by rewrite lookup_insert_ne. Qed.

Lemma has_column_set_col_eq c f df : has_column c (set_col c f df) = true.
Proof.
  unfold has_column, set_col. cbn. apply bool_decide_eq_true_2.
  destruct (bool_decide_reflect (c ∈ columns df)); [done|].
  apply elem_of_app. right. by left.
Qed.

Lemma has_column_set_col_ne c c' f df :
  c ≠ c' → has_column c' (set_col c f df) = has_column c' df.
Proof.
  intros Hne. unfold has_column, set_col. cbn.
  destruct (bool_decide (c ∈ columns df)); [done|]. apply bool_decide_ext.
  rewrite elem_of_app, list_elem_of_singleton. split; [|tauto].
  intros [?|?]; [done|congruence].
Qed.

Lemma has_column_set_col_mono c c' f df :
  has_column c' df = true → has_column c' (set_col c f df) = true.
Proof.
  destruct (decide (c = c')) as [->|Hne]; [intros _; apply has_column_set_col_eq|].
  by rewrite has_column_set_col_ne.
Qed.

Lemma rows_set_col c f df : rows (set_col c f df) = (fun r => <[c := f r]> r) <$> rows df.
Proof. done. Qed.

Lemma col_set_col_eq c f df : cell c <$> rows (set_col c f df) = f <$> rows df.
Proof.
  rewrite rows_set_col, <- list_fmap_compose. apply list_fmap_ext.
  intros _ r _. cbn. apply cell_insert_eq.
Qed.

Lemma col_set_col_ne c c' f df :
  c ≠ c' → cell c' <$> rows (set_col c f df) = cell c' <$> rows df.
Proof.
  intros Hne. rewrite rows_set_col, <- list_fmap_compose. apply list_fmap_ext.
  intros _ r _. cbn. by apply cell_insert_ne.
Qed.

Lemma getitem_set_col_ne c c' f df :
  c ≠ c' → getitem (set_col c f df) c' = getitem df c'.
Proof.
  intros Hne. unfold getitem.
  change (bool_decide (c' ∈ columns (set_col c f df))) with (has_column c' (set_col c f df)).
  rewrite has_column_set_col_ne, col_set_col_ne by done. done.
Qed.

Lemma getitem_set_col_eq c f df : getitem (set_col c f df) c = Ok (f <$> rows df).
Proof. by rewrite getitem_ok, col_set_col_eq by apply has_column_set_col_eq. Qed.

Lemma columns_set_col_prefix c f df : columns df `prefix_of` columns (set_col c f df).
Proof.
  unfold set_col. cbn. destruct (bool_decide (c ∈ columns df)); [done|].
  by apply prefix_app_r.
Qed.

Lemma length_rows_set_col c f df : length (rows (set_col c f df)) = length (rows df).
Proof. by rewrite rows_set_col, length_fmap. Qed.

(** ** The normaliser *)

Lemma step_copy {A} σ l d src dst (k : M A) :
  σ !! l = Some d → has_column src d = true →
  (s ← df_get l src; df_set l dst s;; k) σ = k (<[l := set_col dst (cell src) d]> σ).
Proof.
  intros Hl Hs.
  rewrite bind_run, (df_get_run _ _ _ _ Hl Hs).
  by rewrite bind_run, (df_set_run _ _ _ _ _ Hl).
Qed.

Lemma step_col {A} σ l d src dst (F : list Cell → Res (list Cell)) (f : Row → Cell) (k : M A) :
  σ !! l = Some d → has_column src d = true →
  F (cell src <$> rows d) = Ok (f <$> rows d) →
  (s ← df_get l src; s ← lift (F s); df_set l dst s;; k) σ
  = k (<[l := set_col dst f d]> σ).
Proof.
  intros Hl Hs HF.
  rewrite bind_run, (df_get_run _ _ _ _ Hl Hs).
  rewrite bind_run. unfold lift at 1. rewrite HF.
  by rewrite bind_run, (df_set_run _ _ _ _ _ Hl).
Qed.

Lemma step_col2 {A} σ l d src dst (F G : list Cell → Res (list Cell))
    (f g : Row → Cell) (k : M A) :
  σ !! l = Some d → has_column src d = true →
  F (cell src <$> rows d) = Ok (f <$> rows d) →
  G (f <$> rows d) = Ok (g <$> rows d) →
  (s ← df_get l src; s ← lift (F s); s ← lift (G s); df_set l dst s;; k) σ
  = k (<[l := set_col dst g d]> σ).
Proof.
  intros Hl Hs HF HG.
  rewrite bind_run, (df_get_run _ _ _ _ Hl Hs).
  rewrite bind_run. unfold lift at 1. rewrite HF.
  rewrite bind_run. unfold lift at 1. rewrite HG.
  by rewrite bind_run, (df_set_run _ _ _ _ _ Hl).
Qed.

Lemma dt_field_traverse (g : Timestamp → Cell) c df :
  time_column c df = true →
  traverse (dt_field g) (cell c <$> rows df) = Ok ((fun r => dt g (cell c r)) <$> rows df).
Proof.
  intros H. rewrite (traverse_ok _ (dt g)); [by rewrite <- list_fmap_compose|].
  apply Forall_fmap, Forall_forall. intros r Hr.
  unfold time_column in H. rewrite forallb_forall in H.
  specialize (H r). rewrite <- list_elem_of_In in H. specialize (H Hr).
  cbn. by destruct (cell c r).
Qed.

Lemma time_column_set_col_ne c c' f df :
  c ≠ c' → time_column c' (set_col c f df) = time_column c' df.
Proof.
  intros Hne. unfold time_column. rewrite rows_set_col.
  induction (rows df) as [|r rs IH]; [done|].
  cbn. by rewrite IH, cell_insert_ne.
Qed.

Section NormalizerProps.

Variable month_name : Z → string.
Variable parse_datetime : Cell → option Timestamp.

Local Abbreviation conv := (conv parse_datetime).
Local Abbreviation normalizado := (normalizado month_name parse_datetime).

Lemma to_datetime_ok c df :
  convertible parse_datetime c df = true →
  to_datetime parse_datetime (cell c <$> rows df)
  = Ok ((fun r => conv (cell c r)) <$> rows df).
Proof.
  intros H. unfold to_datetime.
  rewrite (traverse_ok _ conv); [by rewrite <- list_fmap_compose|].
  apply Forall_fmap, Forall_forall. intros r Hr.
  unfold convertible in H. rewrite forallb_forall in H.
  specialize (H r). rewrite <- list_elem_of_In in H. specialize (H Hr).
  cbn. unfold conv in *. by destruct (to_datetime_cell parse_datetime (cell c r)).
Qed.

Lemma mes_nombre_traverse c df :
  time_column c df = true →
  traverse (mes_nombre month_name) ((fun r => dt el_mes (cell c r)) <$> rows df)
  = Ok ((fun r => dt (el_mes_nombre month_name) (cell c r)) <$> rows df).
Proof.
  intros H.
  rewrite (traverse_ok _ (fun x => match x with
                                   | VInt m => VStr (PyStr.capitalize (month_name m))
                                   | _ => VNull
                                   end)).
  - rewrite <- list_fmap_compose. f_equal. apply list_fmap_ext. intros i r Hr. cbn.
    unfold time_column in H. rewrite forallb_forall in H.
    specialize (H r). rewrite <- list_elem_of_In in H.
    apply list_elem_of_lookup_2 in Hr. specialize (H Hr).
    by destruct (cell c r).
  - apply Forall_fmap, Forall_forall. intros r Hr.
    unfold time_column in H. rewrite forallb_forall in H.
    specialize (H r). rewrite <- list_elem_of_In in H. specialize (H Hr).
    cbn. by destruct (cell c r).
Qed.

Lemma cols_fecha_elem_of c cols : c ∈ cols_fecha cols → c ∈ cols.
Proof.
  unfold cols_fecha. rewrite list_elem_of_In, List.filter_In, <- list_elem_of_In. tauto.
Qed.

Lemma procesar_datos_run σ l df c rest :
  σ !! l = Some df →
  cols_fecha (columns df) = c :: rest →
  convertible parse_datetime c df = true →
  procesar_datos month_name parse_datetime l σ = (Ok l, <[l := normalizado c df]> σ).
Proof.
  intros Hl Hc Hconv. unfold procesar_datos.
  assert (Hhas : has_column c df = true).
  { apply bool_decide_eq_true_2, cols_fecha_elem_of. rewrite Hc. by left. }
  rewrite bind_run, (deref_run _ _ _ Hl).
  rewrite bind_run. unfold lift at 1. rewrite Hc. cbn [first].
  rewrite (step_col σ l df c c (to_datetime parse_datetime) (fun r => conv (cell c r)))
    by (done || by apply to_datetime_ok).
  set (d1 := set_col c (fun r => conv (cell c r)) df).
  assert (Hl1 := store_insert_lookup σ l df d1 Hl).
  rewrite (step_copy _ l d1 c "Fecha") by (done || apply has_column_set_col_eq).
  rewrite store_insert_insert.
  set (d2 := set_col "Fecha" (cell c) d1).
  assert (Hl2 := store_insert_lookup σ l df d2 Hl).
  assert (Ht2 : time_column "Fecha" d2 = true).
  { unfold time_column. subst d2. rewrite rows_set_col.
    rewrite forallb_forall. intros r' Hr'. rewrite <- list_elem_of_In in Hr'.
    apply list_elem_of_fmap in Hr' as (r1 & -> & Hr1). rewrite cell_insert_eq.
    subst d1. rewrite rows_set_col in Hr1.
    apply list_elem_of_fmap in Hr1 as (r & -> & Hr). rewrite cell_insert_eq.
    unfold convertible in Hconv. rewrite forallb_forall in Hconv.
    apply Hconv. by rewrite <- list_elem_of_In. }
  assert (Hh2 : has_column "Fecha" d2 = true) by apply has_column_set_col_eq.
  rewrite (step_col _ l d2 "Fecha" "Mes" dt_month (fun r => dt el_mes (cell "Fecha" r)))
    by (done || by apply dt_field_traverse).
  rewrite store_insert_insert.
  set (d3 := set_col "Mes" _ d2).
  assert (Hl3 := store_insert_lookup σ l df d3 Hl).
  assert (Ht3 : time_column "Fecha" d3 = true)
    by (subst d3; by rewrite time_column_set_col_ne).
  assert (Hh3 : has_column "Fecha" d3 = true) by (by apply has_column_set_col_mono).
  rewrite (step_col2 _ l d3 "Fecha" "Mes_Nombre" dt_month (traverse (mes_nombre month_name))
             (fun r => dt el_mes (cell "Fecha" r))
             (fun r => dt (el_mes_nombre month_name) (cell "Fecha" r)))
    by (done || (by apply dt_field_traverse) || by apply mes_nombre_traverse).
  rewrite store_insert_insert.
  set (d4 := set_col "Mes_Nombre" _ d3).
  assert (Hl4 := store_insert_lookup σ l df d4 Hl).
  assert (Ht4 : time_column "Fecha" d4 = true)
    by (subst d4; by rewrite time_column_set_col_ne).
  assert (Hh4 : has_column "Fecha" d4 = true) by (by apply has_column_set_col_mono).
  rewrite (step_col _ l d4 "Fecha" "Año" dt_year (fun r => dt el_año (cell "Fecha" r)))
    by (done || by apply dt_field_traverse).
  rewrite store_insert_insert.
  set (d5 := set_col "Año" _ d4).
  assert (Hl5 := store_insert_lookup σ l df d5 Hl).
  assert (Ht5 : time_column "Fecha" d5 = true)
    by (subst d5; by rewrite time_column_set_col_ne).
  assert (Hh5 : has_column "Fecha" d5 = true) by (by apply has_column_set_col_mono).
  rewrite (step_col _ l d5 "Fecha" "Periodo" dt_to_period_M
             (fun r => dt el_periodo (cell "Fecha" r)))
    by (done || by apply dt_field_traverse).
  by rewrite store_insert_insert.
Qed.

Lemma elem_of_columns_set_col k c f df :
  k ∈ columns (set_col c f df) ↔ k ∈ columns df ∨ k = c.
Proof.
  unfold set_col. cbn. destruct (bool_decide_reflect (c ∈ columns df)).
  - split; [tauto|]. intros [?| ->]; done.
  - by rewrite elem_of_app, list_elem_of_singleton.
Qed.

Lemma normalizado_fecha c df :
  cell "Fecha" <$> rows (normalizado c df) = (fun r => conv (cell c r)) <$> rows df.
Proof.
  unfold normalizado.
  rewrite !col_set_col_ne by done. rewrite col_set_col_eq. apply col_set_col_eq.
Qed.

Lemma normalizado_getitem_fecha c df :
  getitem (normalizado c df) "Fecha" = Ok ((fun r => conv (cell c r)) <$> rows df).
Proof.
  rewrite <- normalizado_fecha. apply getitem_ok.
  unfold normalizado. do 4 apply has_column_set_col_mono. apply has_column_set_col_eq.
Qed.

Lemma normalizado_derived c df :
  getitem (normalizado c df) "Mes"
    = Ok ((fun r => dt el_mes (conv (cell c r))) <$> rows df) ∧
  getitem (normalizado c df) "Mes_Nombre"
    = Ok ((fun r => dt (el_mes_nombre month_name) (conv (cell c r))) <$> rows df) ∧
  getitem (normalizado c df) "Año"
    = Ok ((fun r => dt el_año (conv (cell c r))) <$> rows df) ∧
  getitem (normalizado c df) "Periodo"
    = Ok ((fun r => dt el_periodo (conv (cell c r))) <$> rows df).
Proof.
  assert (H2 : ∀ d, cell "Fecha" <$> rows (set_col "Fecha" (cell c)
                      (set_col c (fun r => conv (cell c r)) d))
                    = (fun r => conv (cell c r)) <$> rows d).
  { intros d. rewrite col_set_col_eq. apply col_set_col_eq. }
  unfold normalizado. repeat split.
  - rewrite !getitem_set_col_ne, getitem_set_col_eq by done.
    by rewrite (list_fmap_compose (cell "Fecha") (dt el_mes)), H2, <- list_fmap_compose.
  - rewrite !getitem_set_col_ne, getitem_set_col_eq by done.
    rewrite (list_fmap_compose (cell "Fecha") (dt (el_mes_nombre month_name))).
    by rewrite col_set_col_ne, H2, <- list_fmap_compose by done.
  - rewrite !getitem_set_col_ne, getitem_set_col_eq by done.
    rewrite (list_fmap_compose (cell "Fecha") (dt el_año)).
    by rewrite !col_set_col_ne, H2, <- list_fmap_compose by done.
  - rewrite getitem_set_col_eq.
    rewrite (list_fmap_compose (cell "Fecha") (dt el_periodo)).
    by rewrite !col_set_col_ne, H2, <- list_fmap_compose by done.
Qed.

Lemma normalizado_other c df k :
  k ∉ [c; "Fecha"; "Mes"; "Mes_Nombre"; "Año"; "Periodo"] →
  getitem (normalizado c df) k = getitem df k.
Proof.
  rewrite !not_elem_of_cons. intros (? & ? & ? & ? & ? & ? & _).
  unfold normalizado. by rewrite !getitem_set_col_ne by done.
Qed.

Lemma normalizado_columns c df k :
  c ∈ columns df →
  k ∈ columns (normalizado c df) ↔
  k ∈ columns df ∨ k ∈ ["Fecha"; "Mes"; "Mes_Nombre"; "Año"; "Periodo"].
Proof.
  intros Hc. unfold normalizado. rewrite !elem_of_columns_set_col.
  rewrite !elem_of_cons, elem_of_nil. split; [|tauto].
  intros [[[[[[?| ->]|?]|?]|?]|?]|?]; tauto.
Qed.

Lemma normalizado_prefix c df : columns df `prefix_of` columns (normalizado c df).
Proof.
  unfold normalizado.
  repeat (etrans; [|apply columns_set_col_prefix]). done.
Qed.

Lemma normalizado_length c df : length (rows (normalizado c df)) = length (rows df).
Proof. unfold normalizado. by rewrite !length_rows_set_col. Qed.


(** C8, amended. [procesar_datos] works in place: when it succeeds it
    returns the reference it was given, and the table behind that
    reference is the caller's table modified.  The date column holds the
    converted timestamps; the columns [Fecha], [Mes], [Mes_Nombre], [Año]
    and [Periodo] are added (or overwritten where they exist) after the
    original columns, derived row by row from the date; every other
    column, the number of rows, and every other object in the store are
    unchanged. *)
Theorem procesar_datos_in_place σ l df c rest :
  σ !! l = Some df →
  cols_fecha (columns df) = c :: rest →
  convertible parse_datetime c df = true →
  ∃ df',
    procesar_datos month_name parse_datetime l σ = (Ok l, <[l := df']> σ) ∧
    <[l := df']> σ !! l = Some df' ∧
    (∀ l', l' ≠ l → <[l := df']> σ !! l' = σ !! l') ∧
    columns df `prefix_of` columns df' ∧
    (∀ k, k ∈ columns df' ↔
          k ∈ columns df ∨ k ∈ ["Fecha"; "Mes"; "Mes_Nombre"; "Año"; "Periodo"]) ∧
    length (rows df') = length (rows df) ∧
    (∀ k, k ∉ [c; "Fecha"; "Mes"; "Mes_Nombre"; "Año"; "Periodo"] →
          getitem df' k = getitem df k) ∧
    getitem df' "Fecha" = Ok ((fun r => conv (cell c r)) <$> rows df) ∧
    getitem df' "Mes" = Ok ((fun r => dt el_mes (conv (cell c r))) <$> rows df) ∧
    getitem df' "Mes_Nombre"
      = Ok ((fun r => dt (el_mes_nombre month_name) (conv (cell c r))) <$> rows df) ∧
    getitem df' "Año" = Ok ((fun r => dt el_año (conv (cell c r))) <$> rows df) ∧
    getitem df' "Periodo" = Ok ((fun r => dt el_periodo (conv (cell c r))) <$> rows df).
Proof.
  intros Hl Hc Hconv. exists (normalizado c df).
  split; [by apply (procesar_datos_run _ _ _ _ rest)|].
  split; [by apply (store_insert_lookup _ _ df)|].
  split; [intros l' Hne; by apply list_lookup_insert_ne|].
  split; [apply normalizado_prefix|].
  split.
  { intros k. apply normalizado_columns, cols_fecha_elem_of. rewrite Hc. by left. }
  split; [apply normalizado_length|].
  split; [apply normalizado_other|].
  split; [apply normalizado_getitem_fecha|].
  apply normalizado_derived.
Qed.

End NormalizerProps.


(** C8, as stated, fails: after [procesar_datos] the caller's table, still
    at the reference that was passed in and that is returned, has five more
    columns. *)
Lemma procesar_datos_mutates_input :
  ∃ df', procesar_datos month_name_es no_parse 0%nat [df_ejemplo] = (Ok 0%nat, [df']) ∧
         columns df_ejemplo = [" Fecha "; "cliente"; "categoria"; "venta"] ∧
         columns df' = [" Fecha "; "cliente"; "categoria"; "venta";
                        "Fecha"; "Mes"; "Mes_Nombre"; "Año"; "Periodo"] ∧
         df' ≠ df_ejemplo.
Proof.
  eexists. split; [vm_compute; reflexivity|].
  split; [reflexivity|]. split; [reflexivity|]. intros H. by apply (f_equal columns) in H.
Qed.

(** ** The chart builder's effect on its argument *)

Lemma readonly_ret {A} (a : A) : readonly (mret a).
Proof. by intros σ. Qed.

Lemma readonly_lift {A} (r : Res A) : readonly (lift r).
Proof. by intros σ. Qed.

Lemma readonly_deref l : readonly (deref l).
Proof. intros σ. unfold deref. by destruct (σ !! l). Qed.

Lemma readonly_bind {A B} (m : M A) (f : A → M B) :
  readonly m → (∀ a, readonly (f a)) → readonly (m ≫= f).
Proof.
  intros Hm Hf σ. rewrite bind_run. specialize (Hm σ).
  destruct (m σ) as [[a|e] σ1]; cbn in Hm; subst σ1; [apply Hf|done].
Qed.

Lemma readonly_df_get l c : readonly (df_get l c).
Proof. apply readonly_bind; [apply readonly_deref|intros; apply readonly_lift]. Qed.

Lemma readonly_df_groupby_sum l key val : readonly (df_groupby_sum l key val).
Proof. apply readonly_bind; [apply readonly_deref|intros; apply readonly_lift]. Qed.

Create HintDb readonly.
#[local] Hint Resolve readonly_ret readonly_lift readonly_deref readonly_df_get
  readonly_df_groupby_sum : readonly.

Ltac readonly_steps :=
  repeat first
    [ apply readonly_bind; [solve [auto with readonly]|intros ?]
    | solve [auto with readonly] ].

(** ** The supplier-type split *)

Lemma prefix_app_iff (n h : string) :
  String.prefix n h = true ↔ ∃ post, h = n +:+ post.
Proof.
  revert h. induction n as [|a n IH]; intros h.
  - split; [intros _; by exists h|by destruct h].
  - destruct h as [|b h]; cbn [String.prefix].
    + split; [done|]. by intros [post ?].
    + destruct (Ascii.ascii_dec a b) as [->|Hne].
      * rewrite IH. split; intros [post Hp]; exists post.
        -- by rewrite Hp.
        -- by injection Hp.
      * split; [done|]. intros [post Hp]. injection Hp as ??. congruence.
Qed.

Lemma contains_iff (n h : string) :
  PyStr.contains n h = true ↔ ∃ pre post, h = pre +:+ n +:+ post.
Proof.
  induction h as [|c h IH]; cbn [PyStr.contains]; rewrite orb_true_iff, prefix_app_iff.
  - split.
    + intros [[post Hp]|?]; [|done]. by exists "", post.
    + intros (pre & post & Hp). left. destruct pre; [by exists post|done].
  - rewrite IH. split.
    + intros [[post Hp]|(pre & post & Hp)].
      * by exists "", post.
      * exists (String c pre), post. by rewrite Hp.
    + intros (pre & post & Hp). destruct pre as [|c' pre].
      * left. by exists post.
      * right. exists pre, post. by injection Hp.
Qed.

Lemma lower_app (a b : string) : PyStr.lower (a +:+ b) = PyStr.lower a +:+ PyStr.lower b.
Proof.
  induction a as [|c a IH]; [done|].
  change (String c a +:+ b) with (String c (a +:+ b)).
  cbn [PyStr.lower]. by rewrite IH.
Qed.

Lemma lower_app_inv (s a b : string) :
  PyStr.lower s = a +:+ b →
  ∃ s1 s2, s = s1 +:+ s2 ∧ PyStr.lower s1 = a ∧ PyStr.lower s2 = b.
Proof.
  revert s. induction a as [|c a IH]; intros s H.
  - by exists "", s.
  - destruct s as [|c' s]; [done|].
    change (String c a +:+ b) with (String c (a +:+ b)) in H.
    cbn [PyStr.lower] in H. injection H as Hc H.
    destruct (IH s H) as (s1 & s2 & -> & <- & <-).
    exists (String c' s1), s2. cbn [PyStr.lower]. by rewrite Hc.
Qed.

Lemma count_of_pos (k : Cell) (s : list Cell) : (0 < count_of k s)%nat ↔ k ∈ s.
Proof.
  unfold count_of. induction s as [|c s IH]; cbn.
  - split; [lia|by intros ?%elem_of_nil].
  - rewrite elem_of_cons. destruct (bool_decide_reflect (c = k)) as [->|Hne]; cbn.
    + split; [auto|lia].
    + rewrite IH. split; [auto|]. intros [?|?]; [congruence|done].
Qed.

Lemma value_counts_elem_of (s : list Cell) (k : Cell) (n : nat) :
  Forall (fun c => c ≠ VNull) s →
  (k, n) ∈ value_counts s ↔ k ∈ s ∧ n = count_of k s.
Proof.
  intros Hs. unfold value_counts.
  assert (Hf : List.filter (fun k => negb (is_null k)) s = s).
  { induction Hs as [|c s Hc _ IH]; [done|]. cbn. rewrite IH. by destruct c. }
  rewrite Hf, merge_sort_Permutation, list_elem_of_fmap. split.
  - intros (k' & Heq & Hk). injection Heq as -> ->.
    rewrite unique_elem_of in Hk. by split.
  - intros [Hk ->]. exists k. split; [done|]. by rewrite unique_elem_of.
Qed.

Lemma value_counts_keys_NoDup (s : list Cell) : NoDup (value_counts s).*1.
Proof.
  unfold value_counts. rewrite merge_sort_Permutation, <- list_fmap_compose.
  erewrite list_fmap_ext; [rewrite list_fmap_id; apply unique_NoDup|].
  by intros.
Qed.

(** C7. Every record is put in one of two classes, ["Nuevo"] (new) and
    ["Frecuente"] (recurring).  A category string is classed ["Nuevo"]
    exactly when it has a substring that reads ["nuevo"] once lower-cased;
    anything else is ["Frecuente"].  The split lists each class that occurs
    once, with the number of records in it.  On the two records of the
    specification's example the split is Nuevo: 1, Frecuente: 1. *)
Theorem tipo_proveedor_split :
  (∀ x, tipo_proveedor x = VStr "Nuevo" ∨ tipo_proveedor x = VStr "Frecuente") ∧
  (∀ s, tipo_proveedor (VStr s) = VStr "Nuevo" ↔
        ∃ pre mid post, s = pre +:+ mid +:+ post ∧ PyStr.lower mid = "nuevo") ∧
  (∀ x, (∀ s, x ≠ VStr s) → tipo_proveedor x = VStr "Frecuente") ∧
  (∀ cats k n,
     (k, n) ∈ value_counts (tipo_proveedor <$> cats) ↔
     k ∈ [VStr "Nuevo"; VStr "Frecuente"] ∧
     n = count_of k (tipo_proveedor <$> cats) ∧ (0 < n)%nat) ∧
  (∀ cats, NoDup (value_counts (tipo_proveedor <$> cats)).*1) ∧
  (∃ m figs σ',
     flujo_ejemplo [df_ejemplo] = (Ok (m, figs), σ') ∧
     figs !! 5%nat =
       Some ("tipo_proveedor",
             {| fig_kind := "pie"; fig_title := "Distribución Tipo Proveedor";
                fig_data := Pie [(VStr "Nuevo", 1%nat); (VStr "Frecuente", 1%nat)] |})).
Proof.
  assert (H2 : ∀ x, tipo_proveedor x = VStr "Nuevo" ∨ tipo_proveedor x = VStr "Frecuente").
  { intros [s| | | | |]; cbn; auto. destruct (PyStr.contains _ _); auto. }
  split; [done|]. split.
  { intros s. cbn [tipo_proveedor].
    destruct (PyStr.contains "nuevo" (PyStr.lower s)) eqn:Hc.
    - split; [intros _|done].
      apply contains_iff in Hc as (p & q & Hc).
      apply lower_app_inv in Hc as (pre & s2 & -> & _ & Hc).
      apply lower_app_inv in Hc as (mid & post & -> & Hmid & _).
      by exists pre, mid, post.
    - split; [done|]. intros (pre & mid & post & -> & Hmid).
      rewrite !lower_app, Hmid in Hc.
      assert (PyStr.contains "nuevo" (PyStr.lower pre +:+ "nuevo" +:+ PyStr.lower post) = true)
        by (apply contains_iff; eauto).
      congruence. }
  split.
  { intros [s| | | | |] Hx; try done. by destruct (Hx s). }
  split.
  { intros cats k n.
    assert (Hnn : Forall (fun c => c ≠ VNull) (tipo_proveedor <$> cats)).
    { apply Forall_fmap, Forall_forall. intros x _. cbn. by destruct (H2 x) as [-> | ->]. }
    rewrite (value_counts_elem_of _ _ _ Hnn).
    split.
    - intros [Hk ->]. split; [|split; [done|by apply count_of_pos]].
      apply list_elem_of_fmap in Hk as (x & -> & _).
      destruct (H2 x) as [-> | ->]; [by left|by right; left].
    - intros (_ & -> & Hpos). split; [by apply count_of_pos|done]. }
  split; [intros; apply value_counts_keys_NoDup|].
  do 3 eexists. split; vm_compute; reflexivity.
Qed.

(** ** The month axis of the year-over-year comparison *)

Lemma ts_compare_antisym a b : ts_compare a b = CompOpp (ts_compare b a).
Proof.
  unfold ts_compare.
  rewrite (Z.compare_antisym (ts_year a)), (Z.compare_antisym (ts_month a)),
    (Z.compare_antisym (ts_day a)), (Z.compare_antisym (ts_nanos a)).
  destruct (ts_year a ?= ts_year b); cbn; try done.
  destruct (ts_month a ?= ts_month b); cbn; try done.
  destruct (ts_day a ?= ts_day b); cbn; try done.
  by destruct (ts_nanos a ?= ts_nanos b).
Qed.

#[global] Instance cell_le_total : Total cell_le.
Proof.
  intros a b. unfold cell_le.
  destruct a as [s|x|p|t|y m|], b as [s'|x'|p'|t'|y' m'|]; cbn; auto.
  - destruct (String.leb_total s s') as [-> | ->]; auto.
  - destruct (Z.leb_spec x x'), (Z.leb_spec x' x); auto; lia.
  - destruct (Qle_bool p p') eqn:E1; [auto|]. right.
    apply Is_true_true, Qle_bool_iff. apply Qlt_le_weak, Qnot_le_lt.
    intros H%Qle_bool_iff. congruence.
  - unfold ts_leb. rewrite (ts_compare_antisym t' t).
    destruct (ts_compare t t'); cbn; auto.
  - destruct (Z.ltb_spec y y'), (Z.ltb_spec y' y), (Z.eqb_spec y y'), (Z.eqb_spec y' y),
      (Z.leb_spec m m'), (Z.leb_spec m' m); cbn; auto; lia.
Qed.

Lemma sorted_strings (names : list string) :
  Sorted cell_le (VStr <$> names) → Sorted String.le names.
Proof.
  induction names as [|a names IH]; [constructor|].
  rewrite fmap_cons. intros H. inversion H as [|?? Hs Hh]; subst.
  constructor; [by apply IH|].
  destruct names as [|b names]; [constructor|].
  rewrite fmap_cons in Hh. inversion Hh; subst. by constructor.
Qed.

Lemma string_compare_refl (s : string) : (s ?= s)%string = Eq.
Proof.
  induction s as [|a s IH]; [done|]. cbn.
  unfold Ascii.compare. by rewrite N.compare_refl.
Qed.

Lemma string_ltb_iff (a b : string) :
  String.ltb a b = true ↔ String.le a b ∧ a ≠ b.
Proof.
  unfold String.le, String.ltb, String.leb.
  destruct (a ?= b)%string eqn:E; cbn.
  - apply String.compare_eq_iff in E. split; [done|]. by intros [_ ?].
  - split; [|done]. intros _. split; [done|]. intros ->.
    rewrite string_compare_refl in E. done.
  - split; [done|]. by intros [? _].
Qed.

Lemma strictly_sorted (names : list string) :
  Sorted String.le names → NoDup names →
  StronglySorted (fun a b => String.ltb a b = true) names.
Proof.
  intros Hs%Sorted_StronglySorted; [|apply _].
  induction Hs as [|a names Hs IH Ha]; intros Hnd; [constructor|].
  apply NoDup_cons in Hnd as [Hnotin Hnd].
  constructor; [by apply IH|].
  rewrite Forall_forall in Ha |- *. intros b Hb.
  apply string_ltb_iff. split; [by apply Ha|]. by intros ->.
Qed.

#[global] Instance VStr_inj : Inj (=) (=) VStr.
Proof. by intros a b [= ->]. Qed.

Lemma pivot_axis_elem_of i c df k :
  k ∈ pivot_axis i c df ↔
  ∃ r, r ∈ rows df ∧ cell i r = k ∧ k ≠ VNull ∧ cell c r ≠ VNull.
Proof.
  unfold pivot_axis. rewrite merge_sort_Permutation, unique_elem_of, list_elem_of_fmap.
  split.
  - intros (r & -> & Hr). exists r.
    rewrite list_elem_of_In, List.filter_In, <- list_elem_of_In in Hr.
    destruct Hr as [Hr Hn]. apply andb_true_iff in Hn as [H1 H2].
    unfold notnull in *. repeat split; try done.
    + by destruct (cell i r).
    + by destruct (cell c r).
  - intros (r & Hr & <- & H1 & H2). exists r. split; [done|].
    rewrite list_elem_of_In, List.filter_In, <- list_elem_of_In.
    split; [done|]. unfold notnull.
    by destruct (cell i r), (cell c r).
Qed.

Lemma pivot_axis_NoDup i c df : NoDup (pivot_axis i c df).
Proof. unfold pivot_axis. rewrite merge_sort_Permutation. apply unique_NoDup. Qed.

(** The axis over a column of strings: strictly increasing names. *)
Lemma pivot_axis_names i c df :
  string_column i df = true →
  ∃ names,
    pivot_axis i c df = VStr <$> names ∧
    Sorted String.le names ∧
    NoDup names ∧
    (∀ s, s ∈ names ↔ ∃ r, r ∈ rows df ∧ cell i r = VStr s ∧ cell c r ≠ VNull).
Proof.
  intros Hstr.
  assert (Hall : Forall (fun k => ∃ s, k = VStr s) (pivot_axis i c df)).
  { apply Forall_forall. intros k (r & Hr & <- & Hk & _)%pivot_axis_elem_of.
    unfold string_column in Hstr. rewrite forallb_forall in Hstr.
    specialize (Hstr r). rewrite <- list_elem_of_In in Hstr. specialize (Hstr Hr).
    destruct (cell i r); try done. eauto. }
  assert (Hnames : ∃ names, pivot_axis i c df = VStr <$> names).
  { induction Hall as [|k ks [s ->] _ [names ->]]; [by exists []|]. by exists (s :: names). }
  destruct Hnames as [names Hnames]. exists names.
  split; [done|]. split.
  { apply sorted_strings. rewrite <- Hnames. apply Sorted_merge_sort, _. }
  split.
  { apply (NoDup_fmap VStr). rewrite <- Hnames. apply pivot_axis_NoDup. }
  intros s. rewrite <- (list_elem_of_fmap_inj VStr), <- Hnames, pivot_axis_elem_of.
  split; intros (r & Hr & H1 & H2); exists r; [by destruct H2|done].
Qed.

Lemma numeric_sub (v : string) (df : DataFrame) (rs : list Row) :
  numeric_column v df = true → (∀ r, r ∈ rs → r ∈ rows df) →
  forallb is_numeric (cell v <$> rs) = true.
Proof.
  unfold numeric_column. rewrite !forallb_forall. intros H Hsub c Hc.
  rewrite <- list_elem_of_In in Hc. apply list_elem_of_fmap in Hc as (r & -> & Hr).
  apply H. rewrite <- list_elem_of_In. by apply Hsub.
Qed.

Lemma pivot_table_sum_ok df i c v :
  has_column v df = true → has_column i df = true → has_column c df = true →
  numeric_column v df = true →
  ∃ vals, pivot_table_sum df i c v
          = Ok {| pt_index := pivot_axis i c df;
                  pt_columns :=
                    merge_sort cell_le
                      (unique (cell c <$> List.filter (fun r => notnull i r && notnull c r)
                                            (rows df)));
                  pt_values := vals |}.
Proof.
  intros Hv Hi Hc Hn. unfold pivot_table_sum.
  rewrite (getitem_ok _ _ Hv), (getitem_ok _ _ Hi), (getitem_ok _ _ Hc). cbn [mbind Res_bind].
  set (rs := List.filter _ (rows df)).
  set (h := fun ki kc =>
              match group c kc (group i ki rs) with
              | [] => None
              | g => Some (Qred (Qsum (qval <$> (cell v <$> g))))
              end).
  eexists.
  rewrite (traverse_ok _ (fun ki => h ki <$> merge_sort cell_le (unique (cell c <$> rs))));
    [reflexivity|].
  apply Forall_forall. intros ki _. apply traverse_ok, Forall_forall. intros kc _.
  unfold h. destruct (group c kc (group i ki rs)) as [|r g] eqn:Hg; [done|].
  rewrite series_sum_ok; [done|]. apply (numeric_sub v df); [done|].
  intros r' Hr'. rewrite <- Hg in Hr'. unfold group, rs in Hr'.
  rewrite list_elem_of_In, !List.filter_In, <- list_elem_of_In in Hr'. tauto.
Qed.

(** C6, amended.  On a filtered dataset whose [Mes_Nombre] column holds
    month names, the month axis of the year-over-year pivot lists the
    distinct month names of the records (those with a year) in strictly
    increasing order of the strings themselves, that is alphabetically, and
    it is the same for every reordering of the input rows. *)
Theorem comparacion_anual_month_axis df :
  has_column "venta" df = true →
  has_column "Mes_Nombre" df = true →
  has_column "Año" df = true →
  numeric_column "venta" df = true →
  string_column "Mes_Nombre" df = true →
  ∃ pt names,
    pivot_table_sum df "Mes_Nombre" "Año" "venta" = Ok pt ∧
    pt_index pt = VStr <$> names ∧
    StronglySorted (fun a b => String.ltb a b = true) names ∧
    (∀ s, s ∈ names ↔
          ∃ r, r ∈ rows df ∧ cell "Mes_Nombre" r = VStr s ∧ cell "Año" r ≠ VNull) ∧
    (∀ df', columns df' = columns df → rows df' ≡ₚ rows df →
       ∃ pt', pivot_table_sum df' "Mes_Nombre" "Año" "venta" = Ok pt' ∧
              pt_index pt' = pt_index pt).
Proof.
  intros Hv Hi Hc Hn Hs.
  destruct (pivot_table_sum_ok df "Mes_Nombre" "Año" "venta") as [vals Hpt]; try done.
  destruct (pivot_axis_names "Mes_Nombre" "Año" df Hs) as (names & Hax & Hsort & Hnd & Hin).
  eexists _, names. split; [exact Hpt|]. cbn [pt_index].
  split; [done|]. split; [by apply strictly_sorted|]. split; [done|].
  intros df' Hcols Hperm.
  assert (Hsub : ∀ r, In r (rows df') → In r (rows df)).
  { intros r Hr. by apply (Permutation_in _ Hperm). }
  destruct (pivot_table_sum_ok df' "Mes_Nombre" "Año" "venta") as [vals' Hpt'];
    try (unfold has_column; by rewrite Hcols).
  { unfold numeric_column in *. rewrite forallb_forall in Hn |- *. auto. }
  assert (Hs' : string_column "Mes_Nombre" df' = true).
  { unfold string_column in *. rewrite forallb_forall in Hs |- *. auto. }
  destruct (pivot_axis_names "Mes_Nombre" "Año" df' Hs')
    as (names' & Hax' & Hsort' & Hnd' & Hin').
  eexists. split; [exact Hpt'|]. cbn [pt_index]. rewrite Hax, Hax'. f_equal.
  apply (Sorted_unique String.le); try done.
  apply NoDup_Permutation; try done.
  intros s. rewrite Hin, Hin'.
  split; intros (r & Hr & H); exists r; (split; [|done]).
  - by rewrite <- Hperm.
  - by rewrite Hperm.
Qed.

(** C6, as stated, fails: with sales in January and April the month axis
    of the comparison chart puts April (month 4) before January
    (month 1). *)
Lemma comparacion_anual_alphabetical :
  ∃ figs σ' fig,
    flujo_meses [df_meses] = (Ok figs, σ') ∧
    figs !! 4%nat = Some ("comparacion_anual", fig) ∧
    eje_meses fig = [VStr (PyStr.capitalize (month_name_es 4));
                     VStr (PyStr.capitalize (month_name_es 1))] ∧
    eje_meses fig = [VStr "Abril"; VStr "Enero"] ∧
    eje_meses fig ≠ [VStr "Enero"; VStr "Abril"].
Proof.
  do 3 eexists. split; [vm_compute; reflexivity|].
  split; [reflexivity|]. split; [by vm_compute|]. split; [by vm_compute|].
  vm_compute. discriminate.
Qed.

(** ** The figures *)

Lemma numeric_column_set_col_ne c c' f df :
  c ≠ c' → numeric_column c' (set_col c f df) = numeric_column c' df.
Proof.
  intros Hne. unfold numeric_column. rewrite rows_set_col.
  induction (rows df) as [|r rs IH]; [done|].
  cbn. by rewrite IH, cell_insert_ne.
Qed.

Lemma crear_figura_ok (s : list (Cell * Q)) (tipo title : string) :
  s ≠ [] →
  crear_figura s tipo title
  = Ok {| fig_kind := tipo; fig_title := title; fig_data := Bars s |}.
Proof. by destruct s. Qed.

Lemma plot_table_ok (t : PivotTable) (tipo title : string) :
  pt_columns t ≠ [] →
  plot_table t tipo title
  = Ok {| fig_kind := tipo; fig_title := title; fig_data := GroupedBars t |}.
Proof. unfold plot_table. by destruct (pt_columns t). Qed.

Lemma sort_values_desc_nonempty (s : list (Cell * Q)) : s ≠ [] → sort_values_desc s ≠ [].
Proof.
  intros Hne Hnil. apply Hne, Permutation_nil_r.
  rewrite <- Hnil. unfold sort_values_desc. by rewrite merge_sort_Permutation.
Qed.

(** A key column with a value in some record has a group. *)
Lemma group_keys_some key df :
  existsb (notnull key) (rows df) = true → group_keys key df ≠ [].
Proof.
  intros (r & Hr & Hn)%existsb_exists Hnil. rewrite <- list_elem_of_In in Hr.
  assert (Hin : cell key r ∈ group_keys key df).
  { apply group_keys_elem_of. split; [|eauto].
    unfold notnull in Hn. by destruct (cell key r). }
  rewrite Hnil in Hin. by apply elem_of_nil in Hin.
Qed.

Lemma group_keys_none key df :
  existsb (notnull key) (rows df) = false → group_keys key df = [].
Proof.
  intros Hex. destruct (group_keys key df) as [|k ks] eqn:Hk; [done|].
  assert (Hin : k ∈ group_keys key df) by (rewrite Hk; by left).
  apply group_keys_elem_of in Hin as [Hne (r & Hr & <-)].
  assert (existsb (notnull key) (rows df) = true); [|congruence].
  apply existsb_exists. exists r. rewrite <- list_elem_of_In. split; [done|].
  unfold notnull. by destruct (cell key r).
Qed.

Lemma existsb_rows_set_col (p : Row → bool) c f df :
  (∀ r, p (<[c := f r]> r) = p r) →
  existsb p (rows (set_col c f df)) = existsb p (rows df).
Proof.
  intros Hp. rewrite rows_set_col.
  induction (rows df) as [|r rs IH]; [done|]. cbn. by rewrite Hp, IH.
Qed.

Lemma existsb_notnull_set_col_ne key c f df :
  c ≠ key →
  existsb (notnull key) (rows (set_col c f df)) = existsb (notnull key) (rows df).
Proof.
  intros Hne. apply existsb_rows_set_col. intros r. unfold notnull.
  by rewrite cell_insert_ne.
Qed.

Lemma pivot_columns_some i c df :
  existsb (fun r => notnull i r && notnull c r) (rows df) = true →
  merge_sort cell_le
    (unique (cell c <$> List.filter (fun r => notnull i r && notnull c r) (rows df))) ≠ [].
Proof.
  intros (r & Hr & Hn)%existsb_exists Hnil.
  assert (Hin : cell c r ∈ merge_sort cell_le
                  (unique (cell c <$> List.filter (fun r => notnull i r && notnull c r)
                                        (rows df)))).
  { rewrite merge_sort_Permutation, unique_elem_of. apply list_elem_of_fmap.
    exists r. split; [done|]. rewrite list_elem_of_In. by apply List.filter_In. }
  rewrite Hnil in Hin. by apply elem_of_nil in Hin.
Qed.

(** On a dataset with the columns it reads and something to draw in every
    chart, [generar_graficos] returns its six figures: they plot the group
    sums, the pivot and the class counts of the dataset as it is once the
    classification column is set. *)
Lemma generar_graficos_run σ l df :
  σ !! l = Some df → dataset_ok df = true → graficable df = true →
  ∃ g1 g2 g3 g4 pt,
    groupby_sum (con_tipo_proveedor df) "Periodo" "venta" = Ok g1 ∧
    groupby_sum (con_tipo_proveedor df) "cliente" "venta" = Ok g2 ∧
    groupby_sum (con_tipo_proveedor df) "categoria" "venta" = Ok g3 ∧
    groupby_sum (con_tipo_proveedor df) "Año" "venta" = Ok g4 ∧
    pivot_table_sum (con_tipo_proveedor df) "Mes_Nombre" "Año" "venta" = Ok pt ∧
    generar_graficos l σ =
    (Ok [("compras_mensuales",
          {| fig_kind := "bar"; fig_title := "Total de Compras por Mes";
             fig_data := Bars g1 |});
         ("ventas_cliente",
          {| fig_kind := "bar"; fig_title := "Ventas por Cliente";
             fig_data := Bars (sort_values_desc g2) |});
         ("ventas_categoria",
          {| fig_kind := "bar"; fig_title := "Ventas por Categoría";
             fig_data := Bars (sort_values_desc g3) |});
         ("totales_anuales",
          {| fig_kind := "bar"; fig_title := "Total Ventas por Año";
             fig_data := Bars g4 |});
         ("comparacion_anual",
          {| fig_kind := "bar"; fig_title := "Comparativa Mensual Año a Año";
             fig_data := GroupedBars pt |});
         ("tipo_proveedor",
          {| fig_kind := "pie"; fig_title := "Distribución Tipo Proveedor";
             fig_data := Pie (value_counts (tipo_proveedor <$> (cell "categoria" <$> rows df))) |})],
     <[l := con_tipo_proveedor df]> σ).
Proof.
  intros Hl Hok Hgr. unfold dataset_ok in Hok.
  apply andb_true_iff in Hok as [Hcols Hnum]. cbn [forallb] in Hcols.
  repeat (apply andb_true_iff in Hcols as [? Hcols]).
  unfold graficable in Hgr. apply andb_true_iff in Hgr as [Hkeys Hpiv].
  cbn [forallb] in Hkeys. repeat (apply andb_true_iff in Hkeys as [? Hkeys]).
  set (d := con_tipo_proveedor df).
  assert (Hhas : ∀ c, has_column c df = true → has_column c d = true)
    by (intros; by apply has_column_set_col_mono).
  assert (Hnum' : numeric_column "venta" d = true)
    by (unfold d, con_tipo_proveedor; by rewrite numeric_column_set_col_ne).
  assert (Hbars : ∀ key (h : Cell → Cell * Q),
             "Tipo Proveedor" ≠ key → existsb (notnull key) (rows df) = true →
             h <$> group_keys key d ≠ []).
  { intros key h Hne Hex Hnil%fmap_nil_inv. apply (group_keys_some key d); [|done].
    unfold d, con_tipo_proveedor. by rewrite existsb_notnull_set_col_ne. }
  assert (Hl' := store_insert_lookup σ l df d Hl).
  destruct (pivot_table_sum_ok d "Mes_Nombre" "Año" "venta") as [vals Hpt]; auto.
  do 5 eexists.
  repeat (split; [by apply groupby_sum_ok; auto|]).
  split; [exact Hpt|].
  unfold generar_graficos.
  rewrite bind_run, (df_get_run _ _ _ _ Hl) by done.
  rewrite <- list_fmap_compose.
  rewrite bind_run, (df_set_run _ _ _ _ _ Hl). fold (con_tipo_proveedor df). fold d.
  rewrite bind_run, (df_groupby_sum_run _ _ _ _ _ Hl'), groupby_sum_ok by auto.
  rewrite bind_run. unfold lift at 1. rewrite crear_figura_ok by (by apply Hbars).
  rewrite bind_run, (df_groupby_sum_run _ _ _ _ _ Hl'), groupby_sum_ok by auto.
  rewrite bind_run. unfold lift at 1.
  rewrite crear_figura_ok by (by apply sort_values_desc_nonempty, Hbars).
  rewrite bind_run, (df_groupby_sum_run _ _ _ _ _ Hl'), groupby_sum_ok by auto.
  rewrite bind_run. unfold lift at 1.
  rewrite crear_figura_ok by (by apply sort_values_desc_nonempty, Hbars).
  rewrite bind_run, (df_groupby_sum_run _ _ _ _ _ Hl'), groupby_sum_ok by auto.
  rewrite bind_run. unfold lift at 1. rewrite crear_figura_ok by (by apply Hbars).
  rewrite bind_run, (deref_run _ _ _ Hl').
  rewrite bind_run. unfold lift at 1. rewrite Hpt.
  rewrite bind_run. unfold lift at 1. rewrite plot_table_ok.
  2:{ cbn [pt_columns]. apply pivot_columns_some. unfold d, con_tipo_proveedor.
      rewrite existsb_rows_set_col; [done|]. intros r. unfold notnull.
      by rewrite !cell_insert_ne. }
  rewrite bind_run, (df_get_run _ _ _ _ Hl') by apply has_column_set_col_eq.
  assert (Htp : cell "Tipo Proveedor" <$> rows d
                = tipo_proveedor <$> (cell "categoria" <$> rows df)).
  { unfold d, con_tipo_proveedor. rewrite col_set_col_eq. by rewrite <- list_fmap_compose. }
  by rewrite Htp, <- list_fmap_compose.
Qed.

(** C10. Called on a dataset with a [categoria] column, [generar_graficos]
    changes the store only at its argument, whether or not it goes on to
    return the figures, and there only by the assignment of the column
    ['Tipo Proveedor'], the classification of each row's category: the
    column is appended as the one new, last column (where the dataset
    already had a column of that name its cells are replaced and no column
    is added); every other column, the number and the order of the rows are
    as before.  On a dataset with all the columns the charts read and
    something to draw in every chart, the six figures are returned. *)
Theorem generar_graficos_adds_tipo_proveedor σ l df :
  σ !! l = Some df →
  has_column "categoria" df = true →
  ∃ df',
    (generar_graficos l σ).2 = <[l := df']> σ ∧
    <[l := df']> σ !! l = Some df' ∧
    (∀ l', l' ≠ l → <[l := df']> σ !! l' = σ !! l') ∧
    columns df' = (if has_column "Tipo Proveedor" df then columns df
                   else columns df ++ ["Tipo Proveedor"]) ∧
    getitem df' "Tipo Proveedor" = Ok (tipo_proveedor <$> (cell "categoria" <$> rows df)) ∧
    (∀ k, k ≠ "Tipo Proveedor" → getitem df' k = getitem df k) ∧
    rows df' = (fun r => <["Tipo Proveedor" := tipo_proveedor (cell "categoria" r)]> r)
                 <$> rows df ∧
    length (rows df') = length (rows df) ∧
    (dataset_ok df = true → graficable df = true →
       ∃ figs, (generar_graficos l σ).1 = Ok figs ∧
               figs.*1 = ["compras_mensuales"; "ventas_cliente"; "ventas_categoria";
                          "totales_anuales"; "comparacion_anual"; "tipo_proveedor"]).
Proof.
  intros Hl Hc. exists (con_tipo_proveedor df).
  split.
  { unfold generar_graficos.
    rewrite bind_run, (df_get_run _ _ _ _ Hl Hc).
    rewrite <- list_fmap_compose.
    rewrite bind_run, (df_set_run _ _ _ _ _ Hl).
    match goal with |- (?m _).2 = _ => assert (Hro : readonly m) end.
    { readonly_steps. }
    apply Hro. }
  split; [by apply (store_insert_lookup _ _ df)|].
  split; [intros l' Hne; by apply list_lookup_insert_ne|].
  split; [done|].
  split; [by rewrite <- list_fmap_compose; apply getitem_set_col_eq|].
  split; [intros k Hk; by apply getitem_set_col_ne|].
  split; [done|]. split; [apply length_rows_set_col|].
  intros Hok Hgr.
  destruct (generar_graficos_run σ l df Hl Hok Hgr)
    as (g1 & g2 & g3 & g4 & pt & _ & _ & _ & _ & _ & ->).
  by eexists.
Qed.

(** ** The theorems at the example data *)

(** The specification's example: total 300, tax 57.00, net 243.00, one
    year, 2023, with 300. *)
Example flujo_ejemplo_valores :
  ∃ m figs σ' fig,
    flujo_ejemplo [df_ejemplo] = (Ok (m, figs), σ') ∧
    total m = 300%Q ∧ (iva m == 57)%Q ∧ (neto m == 243)%Q ∧
    mostrar_metricas m
      = [("🧾 Total Ventas", "$300.00"); ("💵 Neto", "$243.00");
         ("📈 Ticket Promedio", "$150.00")] ∧
    money (Fin (iva m)) = "$57.00" ∧
    figs !! 3%nat = Some ("totales_anuales", fig) ∧
    fig_data fig = Bars [(VInt 2023, 300%Q)].
Proof.
  do 4 eexists. split; [vm_compute; reflexivity|].
  repeat split; vm_compute; reflexivity.
Qed.

Example money_ejemplos :
  money (Fin (1234567891 # 1000)) = "$1,234,567.89" ∧
  money (Fin (-5 # 2)) = "$-2.50" ∧
  money (Fin 0) = "$0.00" ∧
  money NaN = "$nan".
Proof. repeat split; vm_compute; reflexivity. Qed.

Ltac by_computation := vm_compute; reflexivity.

(** C1 at the example: client A selected, one of the two records is kept. *)
Lemma filtrar_datos_subsequence_witness :
  ∃ out,
    filtrar_datos 0%nat [VStr "A"] todas_categorias (fecha 2023 1 1) (fecha 2023 12 31)
      [df_normalizado] = (Ok 1%nat, [df_normalizado; out]) ∧
    length (rows out) = 1%nat.
Proof.
  destruct (filtrar_datos_subsequence [df_normalizado] 0%nat df_normalizado
              [VStr "A"] todas_categorias (fecha 2023 1 1) (fecha 2023 12 31))
    as (out & Hrun & _ & Hrows & _); try by_computation.
  exists out. split; [exact Hrun|]. rewrite Hrows. by_computation.
Defined.

(** C9 at the example. *)
Lemma filtrar_datos_idempotent_witness :
  ∃ once,
    (l1 ← filtrar_datos 0%nat [VStr "A"] todas_categorias (fecha 2023 1 1) (fecha 2023 12 31);
     l2 ← filtrar_datos l1 [VStr "A"] todas_categorias (fecha 2023 1 1) (fecha 2023 12 31);
     mret (l1, l2)) [df_normalizado]
    = (Ok (1%nat, 2%nat), [df_normalizado; once; once]).
Proof.
  apply (filtrar_datos_idempotent [df_normalizado] 0%nat df_normalizado); by_computation.
Defined.





(** C6 at the sales of January and April. *)
Lemma comparacion_anual_month_axis_witness :
  ∃ pt names,
    pivot_table_sum df_meses_normalizado "Mes_Nombre" "Año" "venta" = Ok pt ∧
    pt_index pt = VStr <$> names ∧
    StronglySorted (fun a b => String.ltb a b = true) names.
Proof.
  destruct (comparacion_anual_month_axis df_meses_normalizado)
    as (pt & names & H1 & H2 & H3 & _); try by_computation.
  by exists pt, names.
Defined.

(** C8 at the example. *)
Lemma procesar_datos_in_place_witness :
  ∃ df', procesar_datos month_name_es no_parse 0%nat [df_ejemplo]
           = (Ok 0%nat, <[0%nat := df']> [df_ejemplo]) ∧
         length (rows df') = length (rows df_ejemplo).
Proof.
  destruct (procesar_datos_in_place month_name_es no_parse [df_ejemplo] 0%nat df_ejemplo
              " Fecha " [])
    as (df' & Hrun & _ & _ & _ & _ & Hlen & _); try by_computation.
  by exists df'.
Defined.

(** C10 at the normalised example. *)
Lemma generar_graficos_adds_tipo_proveedor_witness :
  ∃ df',
    (generar_graficos 0%nat [df_normalizado]).2 = <[0%nat := df']> [df_normalizado] ∧
    columns df' = columns df_normalizado ++ ["Tipo Proveedor"] ∧
    getitem df' "Tipo Proveedor" = Ok [VStr "Nuevo"; VStr "Frecuente"].
Proof.
  destruct (generar_graficos_adds_tipo_proveedor [df_normalizado] 0%nat df_normalizado)
    as (df' & Hrun & _ & _ & Hcols & Htp & _); try by_computation.
  by exists df'.
Defined.


(** * Further properties of [app.py] *)

(** ** The order of timestamps *)

Lemma ts_leb_trans a b c : ts_leb a b = true → ts_leb b c = true → ts_leb a c = true.
Proof.
  destruct a as [ya ma da na], b as [yb mb db nb], c as [yc mc dc nc].
  unfold ts_leb, ts_compare. cbn.
  destruct (Z.compare_spec ya yb), (Z.compare_spec yb yc), (Z.compare_spec ya yc);
    try done; try lia;
  destruct (Z.compare_spec ma mb), (Z.compare_spec mb mc), (Z.compare_spec ma mc);
    try done; try lia;
  destruct (Z.compare_spec da db), (Z.compare_spec db dc), (Z.compare_spec da dc);
    try done; try lia;
  destruct (Z.compare_spec na nb), (Z.compare_spec nb nc), (Z.compare_spec na nc);
    try done; lia.
Qed.

Lemma ts_leb_total a b : ts_leb a b = true ∨ ts_leb b a = true.
Proof.
  unfold ts_leb. rewrite (ts_compare_antisym b a).
  destruct (ts_compare a b); cbn; auto.
Qed.

(** ** Failing traversals *)

Lemma traverse_first_failure {A B} (f : A → Res B) (l : list A) :
  forallb (fun x => is_ok (f x)) l = false →
  ∃ x e, x ∈ l ∧ f x = Raise e ∧ traverse f l = Raise e.
Proof.
  induction l as [|x l IH]; [done|]. cbn [forallb traverse].
  destruct (f x) as [y|e] eqn:Hx; cbn.
  - intros (x' & e & Hin & Hf & ->)%IH. exists x', e. split; [by right|done].
  - intros _. exists x, e. split; [by left|done].
Qed.

Lemma ge_ts_type_error t0 (c : string) (rs : list Row) :
  forallb (fun r => is_datetime (cell c r)) rs = false →
  ge_ts t0 (cell c <$> rs) = Raise TypeError.
Proof.
  intros H. unfold ge_ts.
  set (f := fun x => match x with
                     | VTime u => Ok (ts_leb t0 u)
                     | VNull => Ok false
                     | _ => Raise TypeError
                     end).
  assert (Hf : forallb (fun x => is_ok (f x)) (cell c <$> rs) = false).
  { revert H. induction rs as [|r rs IH]; [done|].
    cbn. destruct (cell c r); cbn; auto. }
  destruct (traverse_first_failure f (cell c <$> rs) Hf) as (x & e & _ & Hx & ->).
  unfold f in Hx. by destruct x; simplify_eq.
Qed.

(** ** Errors of the filter *)

Lemma getitem_missing df c : has_column c df = false → getitem df c = Raise (KeyError c).
Proof. unfold has_column, getitem. by intros ->. Qed.

Lemma df_get_missing σ l df c :
  σ !! l = Some df → has_column c df = false →
  df_get l c σ = (Raise (KeyError c), σ).
Proof.
  intros Hl Hc. unfold df_get. rewrite bind_run, (deref_run _ _ _ Hl).
  unfold lift. by rewrite getitem_missing.
Qed.

(** X1. A dataset that lacks one of the columns the filter reads makes
    [filtrar_datos] raise the [KeyError] of the first of [cliente],
    [categoria], [Fecha] that is missing; no frame is allocated and the
    store is as before. *)
Theorem filtrar_datos_missing_column σ l df cs cats t0 t1 :
  σ !! l = Some df →
  (has_column "cliente" df = false →
     filtrar_datos l cs cats t0 t1 σ = (Raise (KeyError "cliente"), σ)) ∧
  (has_column "cliente" df = true → has_column "categoria" df = false →
     filtrar_datos l cs cats t0 t1 σ = (Raise (KeyError "categoria"), σ)) ∧
  (has_column "cliente" df = true → has_column "categoria" df = true →
   has_column "Fecha" df = false →
     filtrar_datos l cs cats t0 t1 σ = (Raise (KeyError "Fecha"), σ)).
Proof.
  intros Hl. unfold filtrar_datos. repeat split.
  - intros H1. by rewrite bind_run, (df_get_missing _ _ _ _ Hl H1).
  - intros H1 H2. rewrite bind_run, (df_get_run _ _ _ _ Hl H1).
    by rewrite bind_run, (df_get_missing _ _ _ _ Hl H2).
  - intros H1 H2 H3. rewrite bind_run, (df_get_run _ _ _ _ Hl H1).
    rewrite bind_run, (df_get_run _ _ _ _ Hl H2).
    by rewrite bind_run, (df_get_missing _ _ _ _ Hl H3).
Qed.

(** X1 at the table of one sale, which has no category column. *)
Lemma filtrar_datos_missing_column_witness :
  filtrar_datos 0%nat [VStr "A"] [] (fecha 2023 1 1) (fecha 2023 12 31) [df_decimal]
  = (Raise (KeyError "categoria"), [df_decimal]).
Proof.
  destruct (filtrar_datos_missing_column [df_decimal] 0%nat df_decimal [VStr "A"] []
              (fecha 2023 1 1) (fecha 2023 12 31)) as (_ & H & _); [by_computation|].
  apply H; by_computation.
Defined.

(** X2. On a dataset whose [Fecha] column holds a cell that is neither a
    timestamp nor missing (a table that was not normalised), the date
    comparison of [filtrar_datos] raises a [TypeError]; no frame is
    allocated and the store is as before. *)
Theorem filtrar_datos_type_error σ l df cs cats t0 t1 :
  σ !! l = Some df →
  has_column "cliente" df = true →
  has_column "categoria" df = true →
  has_column "Fecha" df = true →
  datetime_column "Fecha" df = false →
  filtrar_datos l cs cats t0 t1 σ = (Raise TypeError, σ).
Proof.
  intros Hl H1 H2 H3 Hd. unfold filtrar_datos.
  rewrite bind_run, (df_get_run _ _ _ _ Hl H1).
  rewrite bind_run, (df_get_run _ _ _ _ Hl H2).
  rewrite bind_run, (df_get_run _ _ _ _ Hl H3).
  rewrite bind_run. unfold lift at 1. by rewrite ge_ts_type_error.
Qed.

(** X2 at the table whose dates are text. *)
Lemma filtrar_datos_type_error_witness :
  filtrar_datos 0%nat [VStr "A"] [VStr "Proveedor X"] (fecha 2023 1 1) (fecha 2023 12 31)
    [df_texto] = (Raise TypeError, [df_texto]).
Proof. apply (filtrar_datos_type_error [df_texto] 0%nat df_texto); by_computation. Defined.

(** ** Ranges and selections *)

Lemma keeps_inverted cs cats t0 t1 r : ts_leb t0 t1 = false → keeps cs cats t0 t1 r = false.
Proof.
  intros Hinv. unfold keeps, between.
  destruct (cell "Fecha" r) as [| | |u| |]; rewrite ?andb_false_r; try done.
  destruct (ts_leb t0 u) eqn:H0, (ts_leb u t1) eqn:H1; rewrite ?andb_false_r; try done.
  by rewrite (ts_leb_trans _ _ _ H0 H1) in Hinv.
Qed.

Lemma filter_none {A} (f : A → bool) (l : list A) :
  (∀ x, x ∈ l → f x = false) → List.filter f l = [].
Proof.
  induction l as [|x l IH]; [done|]. intros H. cbn.
  rewrite (H x) by (by left). apply IH. intros; apply H; by right.
Qed.

Lemma filter_all {A} (f : A → bool) (l : list A) :
  (∀ x, x ∈ l → f x = true) → List.filter f l = l.
Proof.
  induction l as [|x l IH]; [done|]. intros H. cbn.
  rewrite (H x) by (by left). f_equal. apply IH. intros; apply H; by right.
Qed.

(** X3. A range whose start lies after its end is not rejected: on a
    normalised dataset [filtrar_datos] returns, without raising, a frame
    with the columns of the input and no rows. *)
Theorem filtrar_datos_inverted_range σ l df cs cats t0 t1 :
  σ !! l = Some df →
  has_column "cliente" df = true →
  has_column "categoria" df = true →
  has_column "Fecha" df = true →
  datetime_column "Fecha" df = true →
  ts_leb t0 t1 = false →
  filtrar_datos l cs cats t0 t1 σ
  = (Ok (length σ), σ ++ [{| columns := columns df; rows := [] |}]).
Proof.
  intros Hl H1 H2 H3 Hd Hinv.
  rewrite (filtrar_datos_run _ _ _ _ _ _ _ Hl H1 H2 H3 Hd). unfold filtrado.
  rewrite filter_none; [done|]. intros r _. by apply keeps_inverted.
Qed.

(** X3 at the example, from December back to January. *)
Lemma filtrar_datos_inverted_range_witness :
  filtrar_datos 0%nat [VStr "A"; VStr "B"] todas_categorias (fecha 2023 12 31) (fecha 2023 1 1)
    [df_normalizado]
  = (Ok 1%nat, [df_normalizado] ++ [{| columns := columns df_normalizado; rows := [] |}]).
Proof.
  apply (filtrar_datos_inverted_range [df_normalizado] 0%nat df_normalizado); by_computation.
Defined.

Lemma ts_min_le_l a b : ts_leb (ts_min a b) a = true.
Proof.
  unfold ts_min. destruct (ts_leb a b) eqn:E; [apply ts_leb_refl|].
  by destruct (ts_leb_total a b) as [H|H]; [rewrite H in E|].
Qed.

Lemma ts_min_le_r a b : ts_leb (ts_min a b) b = true.
Proof. unfold ts_min. destruct (ts_leb a b) eqn:E; [done|apply ts_leb_refl]. Qed.

Lemma ts_max_ge_l a b : ts_leb a (ts_max a b) = true.
Proof. unfold ts_max. destruct (ts_leb a b) eqn:E; [done|apply ts_leb_refl]. Qed.

Lemma ts_max_ge_r a b : ts_leb b (ts_max a b) = true.
Proof.
  unfold ts_max. destruct (ts_leb a b) eqn:E; [apply ts_leb_refl|].
  by destruct (ts_leb_total a b) as [H|H]; [rewrite H in E|].
Qed.

Lemma series_min_le (s : list Cell) m u :
  series_min s = Some m → VTime u ∈ s → ts_leb m u = true.
Proof.
  revert m. induction s as [|c s IH]; intros m Hm Hu; [by apply elem_of_nil in Hu|].
  apply elem_of_cons in Hu as [<-|Hu].
  - cbn in Hm. destruct (series_min s) as [m'|]; injection Hm as <-;
      [apply ts_min_le_l|apply ts_leb_refl].
  - destruct c as [| | |t| |]; cbn in Hm; try by apply IH.
    destruct (series_min s) as [m'|] eqn:Hs; injection Hm as <-.
    + apply (ts_leb_trans _ m'); [apply ts_min_le_r|by apply IH].
    + clear IH. exfalso. induction s as [|c s IH]; [by apply elem_of_nil in Hu|].
      apply elem_of_cons in Hu as [<-|Hu]; [done|].
      destruct c; cbn in Hs; auto. by destruct (series_min s).
Qed.

Lemma series_max_ge (s : list Cell) m u :
  series_max s = Some m → VTime u ∈ s → ts_leb u m = true.
Proof.
  revert m. induction s as [|c s IH]; intros m Hm Hu; [by apply elem_of_nil in Hu|].
  apply elem_of_cons in Hu as [<-|Hu].
  - cbn in Hm. destruct (series_max s) as [m'|]; injection Hm as <-;
      [apply ts_max_ge_l|apply ts_leb_refl].
  - destruct c as [| | |t| |]; cbn in Hm; try by apply IH.
    destruct (series_max s) as [m'|] eqn:Hs; injection Hm as <-.
    + apply (ts_leb_trans _ m'); [by apply IH|apply ts_max_ge_r].
    + clear IH. exfalso. induction s as [|c s IH]; [by apply elem_of_nil in Hu|].
      apply elem_of_cons in Hu as [<-|Hu]; [done|].
      destruct c; cbn in Hs; auto. by destruct (series_max s).
Qed.

Lemma time_column_datetime c df : time_column c df = true → datetime_column c df = true.
Proof.
  unfold time_column, datetime_column. rewrite !forallb_forall.
  intros H r Hr. specialize (H r Hr). by destruct (cell c r).
Qed.

Lemma time_column_cell c df r :
  time_column c df = true → r ∈ rows df → ∃ u, cell c r = VTime u.
Proof.
  unfold time_column. rewrite forallb_forall. intros H Hr.
  specialize (H r). rewrite <- list_elem_of_In in H. specialize (H Hr).
  destruct (cell c r); try done. eauto.
Qed.

(** The filter keeps everything when the sets cover the clients and
    categories present and the interval covers the dates present. *)
Lemma filtrado_all cs cats t0 t1 df :
  (∀ r, r ∈ rows df → cell "cliente" r ∈ cs) →
  (∀ r, r ∈ rows df → cell "categoria" r ∈ cats) →
  (∀ r, r ∈ rows df → ∃ u, cell "Fecha" r = VTime u ∧ ts_leb t0 u = true ∧ ts_leb u t1 = true) →
  filtrado cs cats t0 t1 df = df.
Proof.
  intros Hc Hk Hf. unfold filtrado. rewrite filter_all; [by destruct df|].
  intros r Hr. unfold keeps, between.
  destruct (Hf r Hr) as (u & -> & -> & ->).
  by rewrite !bool_decide_eq_true_2 by auto.
Qed.

(** X4. With every client and every category that occurs selected
    ([unique()], lines 99-100) and the range running from the earliest to
    the latest timestamp of [Fecha] (line 105), [filtrar_datos] removes
    nothing: the frame it allocates equals its input. *)
Theorem filtrar_datos_full_selection σ l df :
  σ !! l = Some df →
  has_column "cliente" df = true →
  has_column "categoria" df = true →
  has_column "Fecha" df = true →
  time_column "Fecha" df = true →
  rows df ≠ [] →
  ∃ fecha_min fecha_max,
    series_min (cell "Fecha" <$> rows df) = Some fecha_min ∧
    series_max (cell "Fecha" <$> rows df) = Some fecha_max ∧
    filtrar_datos l (unique (cell "cliente" <$> rows df))
      (unique (cell "categoria" <$> rows df)) fecha_min fecha_max σ
    = (Ok (length σ), σ ++ [df]).
Proof.
  intros Hl H1 H2 H3 Ht Hne.
  assert (Hmin : is_Some (series_min (cell "Fecha" <$> rows df))).
  { destruct (rows df) as [|r rs] eqn:Hr; [done|].
    destruct (time_column_cell "Fecha" df r Ht) as [u Hu]; [rewrite Hr; by left|].
    cbn. rewrite Hu. eauto. }
  assert (Hmax : is_Some (series_max (cell "Fecha" <$> rows df))).
  { destruct (rows df) as [|r rs] eqn:Hr; [done|].
    destruct (time_column_cell "Fecha" df r Ht) as [u Hu]; [rewrite Hr; by left|].
    cbn. rewrite Hu. eauto. }
  destruct Hmin as [t0 Hmin], Hmax as [t1 Hmax]. exists t0, t1.
  split; [done|]. split; [done|].
  rewrite (filtrar_datos_run _ _ _ _ _ _ _ Hl H1 H2 H3 (time_column_datetime _ _ Ht)).
  rewrite filtrado_all; [done|..].
  - intros r Hr. apply unique_elem_of, list_elem_of_fmap. eauto.
  - intros r Hr. apply unique_elem_of, list_elem_of_fmap. eauto.
  - intros r Hr. destruct (time_column_cell "Fecha" df r Ht Hr) as [u Hu].
    assert (Hin : VTime u ∈ cell "Fecha" <$> rows df)
      by (apply list_elem_of_fmap; eauto).
    exists u. split; [done|].
    split; [by apply (series_min_le _ _ _ Hmin)|by apply (series_max_ge _ _ _ Hmax)].
Qed.

(** X4 at the normalised example. *)
Lemma filtrar_datos_full_selection_witness :
  ∃ fecha_min fecha_max,
    series_min (cell "Fecha" <$> rows df_normalizado) = Some fecha_min ∧
    series_max (cell "Fecha" <$> rows df_normalizado) = Some fecha_max ∧
    filtrar_datos 0%nat (unique (cell "cliente" <$> rows df_normalizado))
      (unique (cell "categoria" <$> rows df_normalizado)) fecha_min fecha_max
      [df_normalizado]
    = (Ok 1%nat, [df_normalizado] ++ [df_normalizado]).
Proof.
  apply (filtrar_datos_full_selection [df_normalizado] 0%nat df_normalizado);
    try by_computation.
  intros H. apply (f_equal length) in H. vm_compute in H. discriminate H.
Defined.

Lemma filter_filter_and {A} (f g : A → bool) (l : list A) :
  List.filter g (List.filter f l) = List.filter (fun x => f x && g x) l.
Proof.
  induction l as [|x l IH]; [done|].
  cbn. destruct (f x) eqn:E; cbn; rewrite ?E, IH; done.
Qed.

Lemma store_snoc_lookup (σ : list DataFrame) df : (σ ++ [df]) !! length σ = Some df.
Proof. rewrite lookup_app_r by lia. by rewrite Nat.sub_diag. Qed.

(** X5. Filtering a filtered frame keeps the records that satisfy both
    sets of criteria, and the two filters can be applied in either order:
    the final frame is the same. *)
Theorem filtrar_datos_compose σ l df cs cats t0 t1 cs' cats' t0' t1' :
  σ !! l = Some df →
  has_column "cliente" df = true →
  has_column "categoria" df = true →
  has_column "Fecha" df = true →
  datetime_column "Fecha" df = true →
  ∃ f1 f2 both,
    (l1 ← filtrar_datos l cs cats t0 t1; filtrar_datos l1 cs' cats' t0' t1') σ
    = (Ok (S (length σ)), σ ++ [f1; both]) ∧
    (l1 ← filtrar_datos l cs' cats' t0' t1'; filtrar_datos l1 cs cats t0 t1) σ
    = (Ok (S (length σ)), σ ++ [f2; both]) ∧
    columns both = columns df ∧
    rows both = List.filter (fun r => keeps cs cats t0 t1 r && keeps cs' cats' t0' t1' r)
                  (rows df).
Proof.
  intros Hl H1 H2 H3 Hd.
  exists (filtrado cs cats t0 t1 df), (filtrado cs' cats' t0' t1' df),
    (filtrado cs' cats' t0' t1' (filtrado cs cats t0 t1 df)).
  split; [|split; [|split; [done|apply filter_filter_and]]].
  - rewrite bind_run, (filtrar_datos_run _ _ _ _ _ _ _ Hl H1 H2 H3 Hd).
    rewrite (filtrar_datos_run _ _ _ _ _ _ _ (store_snoc_lookup _ _));
      try done; [|by apply filtrado_datetime].
    rewrite length_app, <- app_assoc. cbn. by rewrite Nat.add_1_r.
  - rewrite bind_run, (filtrar_datos_run _ _ _ _ _ _ _ Hl H1 H2 H3 Hd).
    rewrite (filtrar_datos_run _ _ _ _ _ _ _ (store_snoc_lookup _ _));
      try done; [|by apply filtrado_datetime].
    rewrite length_app, <- app_assoc. cbn. rewrite Nat.add_1_r. do 4 f_equal.
    unfold filtrado. cbn. f_equal. rewrite !filter_filter_and.
    apply List.filter_ext. intros r. apply andb_comm.
Qed.

(** X5 at the example: client A, then the first half of the year. *)
Lemma filtrar_datos_compose_witness :
  ∃ f1 f2 both,
    (l1 ← filtrar_datos 0%nat [VStr "A"] todas_categorias (fecha 2023 1 1) (fecha 2023 12 31);
     filtrar_datos l1 [VStr "A"; VStr "B"] todas_categorias (fecha 2023 1 1) (fecha 2023 6 30))
      [df_normalizado]
    = (Ok 2%nat, [df_normalizado] ++ [f1; both]) ∧
    (l1 ← filtrar_datos 0%nat [VStr "A"; VStr "B"] todas_categorias
            (fecha 2023 1 1) (fecha 2023 6 30);
     filtrar_datos l1 [VStr "A"] todas_categorias (fecha 2023 1 1) (fecha 2023 12 31))
      [df_normalizado]
    = (Ok 2%nat, [df_normalizado] ++ [f2; both]) ∧
    length (rows both) = 1%nat.
Proof.
  destruct (filtrar_datos_compose [df_normalizado] 0%nat df_normalizado
              [VStr "A"] todas_categorias (fecha 2023 1 1) (fecha 2023 12 31)
              [VStr "A"; VStr "B"] todas_categorias (fecha 2023 1 1) (fecha 2023 6 30))
    as (f1 & f2 & both & Ha & Hb & _ & Hrows); try by_computation.
  exists f1, f2, both. split; [exact Ha|]. split; [exact Hb|].
  rewrite Hrows. by_computation.
Defined.

Lemma filter_sublist_mono {A} (f g : A → bool) (l : list A) :
  (∀ x, f x = true → g x = true) → List.filter f l `sublist_of` List.filter g l.
Proof.
  intros H. induction l as [|x l IH]; [done|]. cbn.
  destruct (f x) eqn:E.
  - rewrite (H x E). by constructor.
  - destruct (g x); [by constructor|done].
Qed.

(** X6. Widening the selection never loses a record: with more clients,
    more categories and a wider date range allowed, the records kept
    before are kept again, in the same order. *)
Theorem filtrar_datos_monotone σ l df cs cats t0 t1 cs' cats' t0' t1' :
  σ !! l = Some df →
  has_column "cliente" df = true →
  has_column "categoria" df = true →
  has_column "Fecha" df = true →
  datetime_column "Fecha" df = true →
  cs ⊆ cs' → cats ⊆ cats' →
  ts_leb t0' t0 = true → ts_leb t1 t1' = true →
  ∃ narrow wide,
    filtrar_datos l cs cats t0 t1 σ = (Ok (length σ), σ ++ [narrow]) ∧
    filtrar_datos l cs' cats' t0' t1' σ = (Ok (length σ), σ ++ [wide]) ∧
    rows narrow `sublist_of` rows wide.
Proof.
  intros Hl H1 H2 H3 Hd Hcs Hcats Ht0 Ht1.
  exists (filtrado cs cats t0 t1 df), (filtrado cs' cats' t0' t1' df).
  split; [by apply filtrar_datos_run|]. split; [by apply filtrar_datos_run|].
  apply filter_sublist_mono. intros r. unfold keeps, between.
  rewrite !andb_true_iff, !bool_decide_eq_true.
  intros [[Hc Hk] Hf]. split; [split; auto|].
  destruct (cell "Fecha" r) as [| | |u| |]; try done.
  apply andb_true_iff in Hf as [Ha Hb]. apply andb_true_iff. split.
  - by apply (ts_leb_trans _ t0).
  - by apply (ts_leb_trans _ t1).
Qed.

(** X6 at the example: from client A in January to both clients all year. *)
Lemma filtrar_datos_monotone_witness :
  ∃ narrow wide,
    filtrar_datos 0%nat [VStr "A"] todas_categorias (fecha 2023 1 1) (fecha 2023 1 31)
      [df_normalizado] = (Ok 1%nat, [df_normalizado] ++ [narrow]) ∧
    filtrar_datos 0%nat [VStr "A"; VStr "B"] todas_categorias (fecha 2023 1 1)
      (fecha 2023 12 31) [df_normalizado] = (Ok 1%nat, [df_normalizado] ++ [wide]) ∧
    rows narrow `sublist_of` rows wide.
Proof.
  apply (filtrar_datos_monotone [df_normalizado] 0%nat df_normalizado);
    try by_computation.
  - intros x ->%list_elem_of_singleton. by left.
  - done.
Defined.

(** ** Failures of the normaliser *)

Lemma forallb_fmap {A B} (p : B → bool) (g : A → B) (l : list A) :
  forallb p (g <$> l) = forallb (fun x => p (g x)) l.
Proof. induction l as [|x l IH]; [done|]. cbn. by rewrite IH. Qed.

Lemma forallb_pointwise {A} (f g : A → bool) (l : list A) :
  (∀ x, f x = g x) → forallb f l = forallb g l.
Proof. intros H. induction l as [|x l IH]; [done|]. cbn. by rewrite H, IH. Qed.

Lemma dt_field_traverse_datetime (g : Timestamp → Cell) c df :
  datetime_column c df = true →
  traverse (dt_field g) (cell c <$> rows df) = Ok ((fun r => dt g (cell c r)) <$> rows df).
Proof.
  intros H. rewrite (traverse_ok _ (dt g)); [by rewrite <- list_fmap_compose|].
  apply Forall_fmap, Forall_forall. intros r Hr.
  unfold datetime_column in H. rewrite forallb_forall in H.
  specialize (H r). rewrite <- list_elem_of_In in H. specialize (H Hr).
  cbn. by destruct (cell c r).
Qed.

Section NormalizerFailures.

Variable month_name : Z → string.
Variable parse_datetime : Cell → option Timestamp.

Local Abbreviation conv := (conv parse_datetime).



Lemma conv_datetime x : is_datetime (conv x) = true.
Proof.
  unfold conv. destruct x; cbn; try done; by destruct (parse_datetime _).
Qed.

Lemma to_datetime_accepted c df :
  accepted parse_datetime c df = true →
  to_datetime parse_datetime (cell c <$> rows df)
  = Ok ((fun r => conv (cell c r)) <$> rows df).
Proof.
  intros H. unfold to_datetime.
  rewrite (traverse_ok _ conv); [by rewrite <- list_fmap_compose|].
  apply Forall_fmap, Forall_forall. intros r Hr.
  unfold accepted in H. rewrite forallb_forall in H.
  specialize (H r). rewrite <- list_elem_of_In in H. specialize (H Hr).
  cbn. unfold conv. by destruct (to_datetime_cell parse_datetime (cell c r)).
Qed.

Lemma cols_fecha_has_column c rest df :
  cols_fecha (columns df) = c :: rest → has_column c df = true.
Proof.
  intros Hc. apply bool_decide_eq_true_2.
  apply (cols_fecha_elem_of c). rewrite Hc. by left.
Qed.


(** X8. When the date column converts but has an empty cell (NaT),
    [procesar_datos] raises a [TypeError] at the month names, after lines
    16-18 have run: the caller's table is left half normalised, with the
    date column converted and [Fecha] and [Mes] set, and without the
    columns [Mes_Nombre], [Año] and [Periodo] being assigned. *)
Theorem procesar_datos_missing_date σ l df c rest :
  σ !! l = Some df →
  cols_fecha (columns df) = c :: rest →
  accepted parse_datetime c df = true →
  convertible parse_datetime c df = false →
  procesar_datos month_name parse_datetime l σ
    = (Raise TypeError, <[l := parcial parse_datetime c df]> σ) ∧
  getitem (parcial parse_datetime c df) "Fecha" = Ok ((fun r => conv (cell c r)) <$> rows df) ∧
  has_column "Mes" (parcial parse_datetime c df) = true ∧
  (∀ k, k ∈ ["Mes_Nombre"; "Año"; "Periodo"] →
        getitem (parcial parse_datetime c df) k = getitem df k).
Proof.
  intros Hl Hc Hacc Hconv.
  assert (Hhas := cols_fecha_has_column _ _ _ Hc).
  set (d1 := set_col c (fun r => conv (cell c r)) df).
  set (d2 := set_col "Fecha" (cell c) d1).
  assert (Hf2 : cell "Fecha" <$> rows d2 = (fun r => conv (cell c r)) <$> rows df).
  { unfold d2, d1. rewrite col_set_col_eq. apply col_set_col_eq. }
  split; [|split; [|split]].
  - unfold procesar_datos.
    rewrite bind_run, (deref_run _ _ _ Hl).
    rewrite bind_run. unfold lift at 1. rewrite Hc. cbn [first].
    rewrite (step_col σ l df c c (to_datetime parse_datetime) (fun r => conv (cell c r)))
      by (done || by apply to_datetime_accepted).
    fold d1. assert (Hl1 := store_insert_lookup σ l df d1 Hl).
    rewrite (step_copy _ l d1 c "Fecha") by (done || apply has_column_set_col_eq).
    rewrite store_insert_insert. fold d2.
    assert (Hl2 := store_insert_lookup σ l df d2 Hl).
    assert (Hd2 : datetime_column "Fecha" d2 = true).
    { unfold datetime_column. rewrite <- (forallb_fmap is_datetime), Hf2, forallb_fmap.
      apply forallb_forall. intros r _. apply conv_datetime. }
    assert (Hh2 : has_column "Fecha" d2 = true) by apply has_column_set_col_eq.
    rewrite (step_col _ l d2 "Fecha" "Mes" dt_month (fun r => dt el_mes (cell "Fecha" r)))
      by (done || by apply dt_field_traverse_datetime).
    rewrite store_insert_insert.
    change (set_col "Mes" _ d2) with (parcial parse_datetime c df).
    set (d3 := parcial parse_datetime c df).
    assert (Hl3 := store_insert_lookup σ l df d3 Hl).
    assert (Hf3 : cell "Fecha" <$> rows d3 = (fun r => conv (cell c r)) <$> rows df).
    { unfold d3, parcial. by rewrite col_set_col_ne. }
    assert (Hd3 : datetime_column "Fecha" d3 = true).
    { unfold datetime_column. rewrite <- (forallb_fmap is_datetime), Hf3, forallb_fmap.
      apply forallb_forall. intros r _. apply conv_datetime. }
    assert (Hh3 : has_column "Fecha" d3 = true) by (by apply has_column_set_col_mono).
    rewrite bind_run, (df_get_run _ _ _ _ Hl3 Hh3).
    rewrite bind_run. unfold lift at 1, dt_month.
    rewrite (dt_field_traverse_datetime _ _ _ Hd3).
    rewrite bind_run. unfold lift at 1.
    assert (Hfail : forallb (fun x => is_ok (mes_nombre month_name x))
                      ((fun r => dt (fun t => VInt (ts_month t)) (cell "Fecha" r))
                         <$> rows d3) = false).
    { rewrite (list_fmap_compose (cell "Fecha") (dt (fun t => VInt (ts_month t)))).
      rewrite Hf3, !forallb_fmap.
      rewrite <- Hconv. unfold convertible. apply forallb_pointwise. intros r.
      by destruct (conv (cell c r)). }
    destruct (traverse_first_failure _ _ Hfail) as (x & e & _ & Hx & Htr).
    subst d3. rewrite Htr. destruct x; cbn in Hx; by simplify_eq.
  - rewrite <- Hf2. unfold parcial. rewrite getitem_set_col_ne by done.
    fold d1. fold d2. apply getitem_ok, has_column_set_col_eq.
  - apply has_column_set_col_eq.
  - intros k Hk. unfold parcial.
    assert (c ≠ k).
    { intros ->. assert (Hin : k ∈ cols_fecha (columns df)) by (rewrite Hc; by left).
      unfold cols_fecha in Hin. rewrite list_elem_of_In, List.filter_In in Hin.
      destruct Hin as [_ Hin].
      repeat (apply elem_of_cons in Hk as [->|Hk]; [by vm_compute in Hin|]).
      by apply elem_of_nil in Hk. }
    rewrite !getitem_set_col_ne; try done;
      intros <-; repeat (apply elem_of_cons in Hk as [?|Hk]; [done|]);
      by apply elem_of_nil in Hk.
Qed.

End NormalizerFailures.


(** X8 at the table with an empty date cell. *)
Lemma procesar_datos_missing_date_witness :
  procesar_datos month_name_es no_parse 0%nat [df_fecha_vacia]
  = (Raise TypeError, <[0%nat := parcial no_parse " Fecha " df_fecha_vacia]> [df_fecha_vacia]).
Proof.
  apply (procesar_datos_missing_date month_name_es no_parse [df_fecha_vacia] 0%nat
           df_fecha_vacia " Fecha " []); by_computation.
Defined.

(** ** Missing columns in the scalars and the charts *)

Lemma groupby_sum_missing_key df key val :
  has_column key df = false → groupby_sum df key val = Raise (KeyError key).
Proof. intros H. unfold groupby_sum. by rewrite (getitem_missing df key) by done. Qed.

Lemma groupby_sum_missing_val df key val :
  has_column key df = true → has_column val df = false →
  groupby_sum df key val = Raise (KeyError val).
Proof.
  intros Hk Hv. unfold groupby_sum.
  by rewrite (getitem_ok _ _ Hk), (getitem_missing df val) by done.
Qed.

Lemma pivot_table_sum_missing_index df i c v :
  has_column v df = true → has_column i df = false →
  pivot_table_sum df i c v = Raise (KeyError i).
Proof.
  intros Hv Hi. unfold pivot_table_sum.
  by rewrite (getitem_ok _ _ Hv), (getitem_missing df i) by done.
Qed.

(** X9. A dataset that lacks [venta] or [cliente] makes the scalars of
    lines 115-118 raise the [KeyError] of the first of the two that is
    missing; the store is as before. *)
Theorem metricas_missing_column σ l df k :
  σ !! l = Some df →
  numeric_column "venta" df = true →
  List.find (fun c => negb (has_column c df)) ["venta"; "cliente"] = Some k →
  metricas l σ = (Raise (KeyError k), σ).
Proof.
  intros Hl Hn Hk. unfold metricas. cbn [List.find] in Hk.
  destruct (has_column "venta" df) eqn:Hv; cbn [negb] in Hk.
  - destruct (has_column "cliente" df) eqn:Hc; cbn [negb] in Hk; [done|].
    injection Hk as <-.
    rewrite bind_run, (df_get_run _ _ _ _ Hl Hv).
    rewrite bind_run. unfold lift at 1. rewrite series_sum_ok by (by apply numeric_series).
    by rewrite bind_run, (df_groupby_sum_run _ _ _ _ _ Hl), groupby_sum_missing_key.
  - injection Hk as <-. by rewrite bind_run, (df_get_missing _ _ _ _ Hl Hv).
Qed.

(** X9 at a table that has the amounts and nothing else. *)
Lemma metricas_missing_column_witness :
  metricas 0%nat [{| columns := ["venta"]; rows := [{[ "venta" := VInt 100 ]}] |}]
  = (Raise (KeyError "cliente"),
     [{| columns := ["venta"]; rows := [{[ "venta" := VInt 100 ]}] |}]).
Proof.
  apply (metricas_missing_column
           [{| columns := ["venta"]; rows := [{[ "venta" := VInt 100 ]}] |}] 0%nat
           {| columns := ["venta"]; rows := [{[ "venta" := VInt 100 ]}] |});
    by_computation.
Defined.

(** X10. A dataset that lacks a column the charts read makes
    [generar_graficos] raise the [KeyError] of the first one missing, in
    the order in which the charts look their columns up, provided the
    charts drawn before that lookup have a bar to draw: every key column
    that is there holds a value in some record.  Unless the missing column
    is [categoria] itself, the caller's dataset has by then been given its
    ['Tipo Proveedor'] column: the failure does not undo the assignment of
    line 35. *)
Theorem generar_graficos_missing_column σ l df k :
  σ !! l = Some df →
  numeric_column "venta" df = true →
  con_barras df = true →
  List.find (fun c => negb (has_column c df))
            ["categoria"; "Periodo"; "venta"; "cliente"; "Año"; "Mes_Nombre"] = Some k →
  generar_graficos l σ
  = (Raise (KeyError k),
     if has_column "categoria" df then <[l := con_tipo_proveedor df]> σ else σ).
Proof.
  intros Hl Hn Hb Hk. unfold generar_graficos. cbn [List.find] in Hk.
  destruct (has_column "categoria" df) eqn:Hcat; cbn [negb] in Hk;
    [|injection Hk as <-; by rewrite bind_run, (df_get_missing _ _ _ _ Hl Hcat)].
  set (d := con_tipo_proveedor df).
  assert (Hhas : ∀ c, has_column c df = true → has_column c d = true)
    by (intros; by apply has_column_set_col_mono).
  assert (Hmiss : ∀ c, c ≠ "Tipo Proveedor" → has_column c df = false →
                       has_column c d = false).
  { intros c Hc Hf. unfold d, con_tipo_proveedor.
    by rewrite has_column_set_col_ne by done. }
  assert (Hnum : numeric_column "venta" d = true)
    by (unfold d, con_tipo_proveedor; by rewrite numeric_column_set_col_ne).
  assert (Hbars : ∀ key (h : Cell → Cell * Q),
             key ∈ ["Periodo"; "cliente"; "categoria"; "Año"] →
             has_column key df = true → h <$> group_keys key d ≠ []).
  { intros key h Hin Hkey Hnil%fmap_nil_inv. apply (group_keys_some key d); [|done].
    unfold d, con_tipo_proveedor. rewrite existsb_notnull_set_col_ne.
    - unfold con_barras in Hb. rewrite forallb_forall in Hb.
      specialize (Hb key). rewrite <- list_elem_of_In in Hb. specialize (Hb Hin).
      by rewrite Hkey in Hb.
    - intros <-. by vm_compute in Hin; repeat (apply elem_of_cons in Hin as [?|Hin]);
        try apply elem_of_nil in Hin. }
  assert (Hl' := store_insert_lookup σ l df d Hl).
  rewrite bind_run, (df_get_run _ _ _ _ Hl) by done.
  rewrite <- list_fmap_compose.
  rewrite bind_run, (df_set_run _ _ _ _ _ Hl). fold (con_tipo_proveedor df). fold d.
  rewrite bind_run, (df_groupby_sum_run _ _ _ _ _ Hl').
  destruct (has_column "Periodo" df) eqn:H1; cbn [negb] in Hk;
    [|injection Hk as <-; by rewrite groupby_sum_missing_key by (by apply Hmiss)].
  destruct (has_column "venta" df) eqn:H2; cbn [negb] in Hk;
    [|injection Hk as <-; by rewrite groupby_sum_missing_val by (auto; by apply Hmiss)].
  rewrite groupby_sum_ok by auto.
  rewrite bind_run. unfold lift at 1.
  rewrite crear_figura_ok by (apply Hbars; [set_solver|done]).
  rewrite bind_run, (df_groupby_sum_run _ _ _ _ _ Hl').
  destruct (has_column "cliente" df) eqn:H3; cbn [negb] in Hk;
    [|injection Hk as <-; by rewrite groupby_sum_missing_key by (by apply Hmiss)].
  rewrite groupby_sum_ok by auto.
  rewrite bind_run. unfold lift at 1.
  rewrite crear_figura_ok by (apply sort_values_desc_nonempty, Hbars; [set_solver|done]).
  rewrite bind_run, (df_groupby_sum_run _ _ _ _ _ Hl'), groupby_sum_ok by auto.
  rewrite bind_run. unfold lift at 1.
  rewrite crear_figura_ok by (apply sort_values_desc_nonempty, Hbars; [set_solver|done]).
  rewrite bind_run, (df_groupby_sum_run _ _ _ _ _ Hl').
  destruct (has_column "Año" df) eqn:H4; cbn [negb] in Hk;
    [|injection Hk as <-; by rewrite groupby_sum_missing_key by (by apply Hmiss)].
  rewrite groupby_sum_ok by auto.
  rewrite bind_run. unfold lift at 1.
  rewrite crear_figura_ok by (apply Hbars; [set_solver|done]).
  rewrite bind_run, (deref_run _ _ _ Hl').
  destruct (has_column "Mes_Nombre" df) eqn:H5; cbn [negb] in Hk; [done|].
  injection Hk as <-.
  rewrite bind_run. unfold lift at 1.
  by rewrite pivot_table_sum_missing_index by (auto; by apply Hmiss).
Qed.

(** X10 at a normalised table without a client column: the monthly chart
    is drawn, then the lookup of [cliente] fails. *)
Lemma generar_graficos_missing_column_witness :
  generar_graficos 0%nat [df_sin_columna_cliente]
  = (Raise (KeyError "cliente"), [con_tipo_proveedor df_sin_columna_cliente]).
Proof.
  apply (generar_graficos_missing_column [df_sin_columna_cliente] 0%nat
           df_sin_columna_cliente "cliente");
    by_computation.
Defined.

(** X17. A dataset in which no record has a period, in particular the
    empty dataset a selection that matches nothing leaves, cannot be
    charted: the bar plot of line 46 has nothing to draw and
    [generar_graficos] raises an [IndexError], after the ['Tipo Proveedor']
    column was assigned and before any other chart is computed. *)
Theorem generar_graficos_nothing_to_draw σ l df :
  σ !! l = Some df →
  has_column "categoria" df = true → has_column "Periodo" df = true →
  has_column "venta" df = true → numeric_column "venta" df = true →
  existsb (notnull "Periodo") (rows df) = false →
  generar_graficos l σ = (Raise IndexError, <[l := con_tipo_proveedor df]> σ).
Proof.
  intros Hl Hcat Hp Hv Hn Hex. unfold generar_graficos.
  set (d := con_tipo_proveedor df).
  assert (Hhas : ∀ c, has_column c df = true → has_column c d = true)
    by (intros; by apply has_column_set_col_mono).
  assert (Hnum : numeric_column "venta" d = true)
    by (unfold d, con_tipo_proveedor; by rewrite numeric_column_set_col_ne).
  assert (Hl' := store_insert_lookup σ l df d Hl).
  rewrite bind_run, (df_get_run _ _ _ _ Hl) by done.
  rewrite <- list_fmap_compose.
  rewrite bind_run, (df_set_run _ _ _ _ _ Hl). fold (con_tipo_proveedor df). fold d.
  rewrite bind_run, (df_groupby_sum_run _ _ _ _ _ Hl'), groupby_sum_ok by auto.
  rewrite group_keys_none; [done|].
  unfold d, con_tipo_proveedor. by rewrite existsb_notnull_set_col_ne.
Qed.

(** X17 at the example filtered with no client selected. *)
Lemma generar_graficos_nothing_to_draw_witness :
  generar_graficos 0%nat [df_sin_clientes]
  = (Raise IndexError, [con_tipo_proveedor df_sin_clientes]).
Proof.
  apply (generar_graficos_nothing_to_draw [df_sin_clientes] 0%nat df_sin_clientes);
    by_computation.
Defined.

(** ** The report *)

(** The loop of lines 78-83 in closed form. *)
Lemma generar_pdf_loop (figs : list (string * Figure)) (elements : list Flowable) :
  fold_left (fun elements kf => (elements ++ [Image (snd kf) 450 250]) ++ [Spacer 1 12])
            figs elements
  = elements ++ flat_map (fun kf => [Image (snd kf) 450 250; Spacer 1 12]) figs.
Proof.
  revert elements. induction figs as [|kf figs IH]; intros elements; cbn.
  - by rewrite app_nil_r.
  - by rewrite IH, <- !app_assoc.
Qed.

Lemma imagenes_loop (figs : list (string * Figure)) :
  imagenes (flat_map (fun kf => [Image (snd kf) 450 250; Spacer 1 12]) figs) = figs.*2.
Proof. induction figs as [|kf figs IH]; [done|]. cbn. by rewrite <- IH. Qed.

Lemma generar_pdf_elements nombre df figs texto :
  generar_pdf nombre df figs texto
  = (nombre,
     [Paragraph "📄 Informe Contable Detallado" estilo_titulo; Spacer 1 12;
      Paragraph texto estilo_normal; Spacer 1 12]
     ++ flat_map (fun kf => [Image (snd kf) 450 250; Spacer 1 12]) figs).
Proof. unfold generar_pdf. by rewrite generar_pdf_loop. Qed.

(** X11. The document [generar_pdf] builds opens with the centred title,
    a spacer, the summary paragraph and a spacer; after them every figure
    of the dictionary appears exactly once, in dictionary order, as an
    image of 450 by 250 followed by a spacer, so that the document has
    four flowables and two more for each figure.  The dataset argument is
    not used. *)
Theorem generar_pdf_story nombre df df' figs texto :
  (generar_pdf nombre df figs texto).1 = nombre ∧
  take 4 (generar_pdf nombre df figs texto).2
    = [Paragraph "📄 Informe Contable Detallado" estilo_titulo; Spacer 1 12;
       Paragraph texto estilo_normal; Spacer 1 12] ∧
  drop 4 (generar_pdf nombre df figs texto).2
    = flat_map (fun kf => [Image (snd kf) 450 250; Spacer 1 12]) figs ∧
  imagenes (generar_pdf nombre df figs texto).2 = figs.*2 ∧
  length (generar_pdf nombre df figs texto).2 = (4 + 2 * length figs)%nat ∧
  generar_pdf nombre df' figs texto = generar_pdf nombre df figs texto.
Proof.
  rewrite !generar_pdf_elements. cbn [fst snd].
  repeat split; try done.
  - cbn. by rewrite imagenes_loop.
  - cbn. do 4 f_equal. induction figs as [|kf figs IH]; [done|]. cbn. lia.
Qed.

(** X12. On a filtered dataset with the columns the charts read, numeric
    amounts and something to draw in every chart (a record with a period,
    one with a client, one with a category, one with a year, one with a
    month name and a year), lines 115-140 produce the file
    [informe_contable.pdf]
    whose summary paragraph is built from the scalars of the dataset and
    whose images are the six figures of [generar_graficos], in the order
    monthly purchases, sales by client, sales by category, yearly totals,
    year-over-year comparison, supplier types: sixteen flowables in all.
    The only effect on the store is the ['Tipo Proveedor'] column of the
    dataset. *)
Theorem informe_contents σ l df :
  σ !! l = Some df → dataset_ok df = true → graficable df = true →
  ∃ figs story,
    generar_graficos l σ = (Ok figs, <[l := con_tipo_proveedor df]> σ) ∧
    informe l σ = (Ok ("informe_contable.pdf", story), <[l := con_tipo_proveedor df]> σ) ∧
    story !! 2%nat = Some (Paragraph (resumen_texto (escalares df)) estilo_normal) ∧
    imagenes story = figs.*2 ∧
    figs.*1 = ["compras_mensuales"; "ventas_cliente"; "ventas_categoria";
               "totales_anuales"; "comparacion_anual"; "tipo_proveedor"] ∧
    length story = 16%nat.
Proof.
  intros Hl Hok Hgr.
  destruct (generar_graficos_run σ l df Hl Hok Hgr)
    as (g1 & g2 & g3 & g4 & pt & _ & _ & _ & _ & _ & Hg).
  unfold dataset_ok in Hok. apply andb_true_iff in Hok as [Hcols Hnum].
  cbn [forallb] in Hcols. repeat (apply andb_true_iff in Hcols as [? Hcols]).
  eexists _, _. split; [exact Hg|].
  unfold informe.
  rewrite bind_run, (metricas_run _ _ _ Hl) by done.
  rewrite bind_run, Hg. unfold mret, M_ret.
  rewrite generar_pdf_elements. split; [reflexivity|]. by cbn.
Qed.

(** X12 at the normalised example. *)
Lemma informe_contents_witness :
  ∃ figs story,
    generar_graficos 0%nat [df_normalizado]
      = (Ok figs, <[0%nat := con_tipo_proveedor df_normalizado]> [df_normalizado]) ∧
    informe 0%nat [df_normalizado]
      = (Ok ("informe_contable.pdf", story),
         <[0%nat := con_tipo_proveedor df_normalizado]> [df_normalizado]) ∧
    story !! 2%nat = Some (Paragraph (resumen_texto (escalares df_normalizado)) estilo_normal) ∧
    imagenes story = figs.*2 ∧
    figs.*1 = ["compras_mensuales"; "ventas_cliente"; "ventas_categoria";
               "totales_anuales"; "comparacion_anual"; "tipo_proveedor"] ∧
    length story = 16%nat.
Proof.
  apply (informe_contents [df_normalizado] 0%nat df_normalizado); by_computation.
Defined.

(** ** The order of the bars *)

#[global] Instance cell_le_trans : Transitive cell_le.
Proof.
  intros a b c. unfold cell_le.
  destruct a as [s|x|p|t|y m|], b as [s'|x'|p'|t'|y' m'|], c as [s''|x''|p''|t''|y'' m''|];
    cbn; try done; try tauto.
  - intros H1 H2. by transitivity s'.
  - rewrite !Is_true_true, !Z.leb_le. lia.
  - rewrite !Is_true_true, !Qle_bool_iff. apply Qle_trans.
  - rewrite !Is_true_true. apply ts_leb_trans.
  - destruct (Z.ltb_spec y y'), (Z.ltb_spec y' y''), (Z.ltb_spec y y''),
      (Z.eqb_spec y y'), (Z.eqb_spec y' y''), (Z.eqb_spec y y''),
      (Z.leb_spec m m'), (Z.leb_spec m' m''), (Z.leb_spec m m''); cbn; auto; lia.
Qed.

Lemma group_keys_sorted key df : StronglySorted cell_le (group_keys key df).
Proof. unfold group_keys. apply StronglySorted_merge_sort; apply _. Qed.

(** Sorted keys of one kind, read back as the values they hold. *)
Lemma sorted_keys_of {A} (f : A → Cell) (lt : relation A) (ks : list Cell) :
  (∀ a b, cell_le (f a) (f b) → f a ≠ f b → lt a b) →
  Forall (fun k => ∃ a, k = f a) ks → StronglySorted cell_le ks → NoDup ks →
  ∃ l, ks = f <$> l ∧ StronglySorted lt l.
Proof.
  intros Hlt Hall Hs. induction Hs as [|k ks Hs IH Hk]; intros Hnd.
  - exists []. split; [done|constructor].
  - apply Forall_cons in Hall as [[a ->] Hall].
    apply NoDup_cons in Hnd as [Hnotin Hnd].
    destruct (IH Hall Hnd) as (l & -> & Hl). exists (a :: l).
    split; [done|]. constructor; [done|].
    apply Forall_forall. intros b Hb.
    assert (Hin : f b ∈ f <$> l) by (apply list_elem_of_fmap; eauto).
    rewrite Forall_forall in Hk. apply Hlt; [by apply Hk|].
    intros Heq. by rewrite Heq in Hnotin.
Qed.

Lemma groupby_sum_keys df key val :
  has_column key df = true → has_column val df = true →
  numeric_column val df = true →
  ∃ g, groupby_sum df key val = Ok g ∧ g.*1 = group_keys key df.
Proof.
  intros Hk Hv Hn. eexists. split; [by apply groupby_sum_ok|].
  rewrite <- list_fmap_compose. apply list_fmap_id.
Qed.

(** X13. The bars of the monthly chart are in chronological order, one
    for each month in which the dataset has a record: the keys of
    [df.groupby('Periodo')['venta'].sum()] are the distinct periods of the
    records, strictly increasing in (year, month). *)
Theorem compras_mensuales_chronological df :
  has_column "Periodo" df = true → has_column "venta" df = true →
  numeric_column "venta" df = true → period_column "Periodo" df = true →
  ∃ g meses,
    groupby_sum df "Periodo" "venta" = Ok g ∧
    g.*1 = (fun p => VPeriod p.1 p.2) <$> meses ∧
    StronglySorted period_lt meses ∧
    (∀ y m, (y, m) ∈ meses ↔ ∃ r, r ∈ rows df ∧ cell "Periodo" r = VPeriod y m).
Proof.
  intros Hk Hv Hn Hp.
  destruct (groupby_sum_keys df "Periodo" "venta") as (g & Hg & Hkeys); try done.
  destruct (sorted_keys_of (fun p : Z * Z => VPeriod p.1 p.2) period_lt
              (group_keys "Periodo" df)) as (meses & Hm & Hs).
  - intros [y m] [y' m']. unfold cell_le, period_lt. cbn.
    destruct (Z.ltb_spec y y'), (Z.eqb_spec y y'), (Z.leb_spec m m'); cbn; try done;
      try lia.
    intros _ Hne. right. split; [done|].
    assert (m ≠ m') by (intros ->; by subst). lia.
  - apply Forall_forall. intros k [Hne (r & Hr & <-)]%group_keys_elem_of.
    unfold period_column in Hp. rewrite forallb_forall in Hp.
    specialize (Hp r). rewrite <- list_elem_of_In in Hp. specialize (Hp Hr).
    destruct (cell "Periodo" r) as [| | | |y m|]; try done. by exists (y, m).
  - apply group_keys_sorted.
  - apply group_keys_NoDup.
  - exists g, meses. split; [done|]. split; [by rewrite Hkeys|]. split; [done|].
    intros y m.
    assert (Hinj : Inj (=) (=) (fun p : Z * Z => VPeriod p.1 p.2))
      by (intros [??] [??] [=]; by subst).
    rewrite <- (list_elem_of_fmap_inj (fun p : Z * Z => VPeriod p.1 p.2)), <- Hm.
    rewrite group_keys_elem_of. cbn. split; [by intros [_ ?]|]. by intros ?.
Qed.

(** X13 at the normalised example: January, then February. *)
Lemma compras_mensuales_chronological_witness :
  ∃ g meses,
    groupby_sum df_normalizado "Periodo" "venta" = Ok g ∧
    g.*1 = (fun p => VPeriod p.1 p.2) <$> meses ∧
    StronglySorted period_lt meses ∧
    (∀ y m, (y, m) ∈ meses ↔
            ∃ r, r ∈ rows df_normalizado ∧ cell "Periodo" r = VPeriod y m).
Proof.
  apply (compras_mensuales_chronological df_normalizado); by_computation.
Defined.

(** X14. The bars of the yearly chart are in increasing order of the
    year, one for each year in which the dataset has a record. *)
Theorem totales_anuales_ascending df :
  has_column "Año" df = true → has_column "venta" df = true →
  numeric_column "venta" df = true → int_column "Año" df = true →
  ∃ g años,
    groupby_sum df "Año" "venta" = Ok g ∧
    g.*1 = VInt <$> años ∧
    StronglySorted Z.lt años ∧
    (∀ y, y ∈ años ↔ ∃ r, r ∈ rows df ∧ cell "Año" r = VInt y).
Proof.
  intros Hk Hv Hn Hp.
  destruct (groupby_sum_keys df "Año" "venta") as (g & Hg & Hkeys); try done.
  destruct (sorted_keys_of VInt Z.lt (group_keys "Año" df)) as (años & Hm & Hs).
  - intros y y'. unfold cell_le. cbn. rewrite Is_true_true, Z.leb_le.
    intros Hle Hne. assert (y ≠ y') by (by intros ->). lia.
  - apply Forall_forall. intros k [Hne (r & Hr & <-)]%group_keys_elem_of.
    unfold int_column in Hp. rewrite forallb_forall in Hp.
    specialize (Hp r). rewrite <- list_elem_of_In in Hp. specialize (Hp Hr).
    destruct (cell "Año" r) as [|y| | | |]; try done. by exists y.
  - apply group_keys_sorted.
  - apply group_keys_NoDup.
  - exists g, años. split; [done|]. split; [by rewrite Hkeys|]. split; [done|].
    intros y.
    assert (Hinj : Inj (=) (=) VInt) by (by intros ?? [=]).
    rewrite <- (list_elem_of_fmap_inj VInt), <- Hm.
    rewrite group_keys_elem_of. split; [by intros [_ ?]|]. by intros ?.
Qed.

(** X14 at the table with a sale in 2023 followed by one in 2022: the
    bars are 2022, then 2023. *)
Lemma totales_anuales_ascending_witness :
  ∃ g años,
    groupby_sum df_dos_años "Año" "venta" = Ok g ∧
    g.*1 = VInt <$> años ∧
    StronglySorted Z.lt años ∧
    (∀ y, y ∈ años ↔ ∃ r, r ∈ rows df_dos_años ∧ cell "Año" r = VInt y).
Proof.
  apply (totales_anuales_ascending df_dos_años); by_computation.
Defined.

(** ** Rankings and counts *)

Lemma StronglySorted_weaken {A} (R R' : relation A) (l : list A) :
  (∀ a b, R a b → R' a b) → StronglySorted R l → StronglySorted R' l.
Proof.
  intros HR. induction 1 as [|a l Hs IH Ha]; constructor; [done|].
  eapply Forall_impl; [exact Ha|]. auto.
Qed.

Lemma sort_values_desc_sorted (s : list (Cell * Q)) :
  StronglySorted (fun a b => (b.2 <= a.2)%Q) (sort_values_desc s).
Proof.
  unfold sort_values_desc.
  set (R := fun a b : Cell * Q => Is_true (Qle_bool b.2 a.2)).
  assert (Transitive R).
  { intros a b c. unfold R. rewrite !Is_true_true, !Qle_bool_iff.
    intros H1 H2. by apply (Qle_trans _ b.2). }
  assert (Total R).
  { intros a b. unfold R. rewrite !Is_true_true, !Qle_bool_iff.
    destruct (Qlt_le_dec a.2 b.2) as [?%Qlt_le_weak|?]; auto. }
  apply (StronglySorted_weaken R).
  - intros a b. unfold R. by rewrite Is_true_true, Qle_bool_iff.
  - by apply StronglySorted_merge_sort.
Qed.

(** X15. The client and category charts rank their bars: the series
    [df.groupby(key)['venta'].sum().sort_values(ascending=False)] has one
    entry for each key of the dataset, the entries of the group sums and no
    others, and lists them from the largest sum to the smallest. *)
Theorem ranking_descending df key :
  has_column key df = true → has_column "venta" df = true →
  numeric_column "venta" df = true →
  ∃ g,
    groupby_sum df key "venta" = Ok g ∧
    sort_values_desc g ≡ₚ g ∧
    (sort_values_desc g).*1 ≡ₚ group_keys key df ∧
    StronglySorted (fun a b => (b.2 <= a.2)%Q) (sort_values_desc g).
Proof.
  intros Hk Hv Hn.
  destruct (groupby_sum_keys df key "venta") as (g & Hg & Hkeys); try done.
  exists g. split; [done|].
  assert (Hp : sort_values_desc g ≡ₚ g) by apply merge_sort_Permutation.
  split; [done|]. split; [by rewrite Hp, Hkeys|]. apply sort_values_desc_sorted.
Qed.

(** X15 at the normalised example, by client. *)
Lemma ranking_descending_witness :
  ∃ g,
    groupby_sum df_normalizado "cliente" "venta" = Ok g ∧
    sort_values_desc g ≡ₚ g ∧
    (sort_values_desc g).*1 ≡ₚ group_keys "cliente" df_normalizado ∧
    StronglySorted (fun a b => (b.2 <= a.2)%Q) (sort_values_desc g).
Proof. apply (ranking_descending df_normalizado "cliente"); by_computation. Defined.

Lemma sum_list_fmap_plus {A} (f g : A → nat) (l : list A) :
  sum_list ((fun x => f x + g x)%nat <$> l) = (sum_list (f <$> l) + sum_list (g <$> l))%nat.
Proof. induction l as [|x l IH]; [done|]. cbn in *. lia. Qed.

Lemma sum_list_indicator (k0 : Cell) (ks : list Cell) :
  NoDup ks → k0 ∈ ks →
  sum_list ((fun k => if bool_decide (k0 = k) then 1 else 0)%nat <$> ks) = 1%nat.
Proof.
  induction 1 as [|k ks Hk Hnd IH]; intros Hin.
  - by apply elem_of_nil in Hin.
  - cbn. destruct (bool_decide_reflect (k0 = k)) as [->|Hne].
    + f_equal. clear IH Hin Hnd. induction ks as [|k' ks IH]; [done|].
      apply not_elem_of_cons in Hk as [Hne Hk]. cbn.
      rewrite bool_decide_eq_false_2 by done. by apply IH.
    + apply elem_of_cons in Hin as [?|Hin]; [done|]. by rewrite IH.
Qed.

(** Counting partitions the series: the counts of distinct values that
    cover it add up to its length. *)
Lemma count_partition (ks s : list Cell) :
  NoDup ks → (∀ x, x ∈ s → x ∈ ks) →
  sum_list ((fun k => count_of k s) <$> ks) = length s.
Proof.
  intros Hnd. induction s as [|x s IH]; intros Hcov.
  - clear Hnd Hcov. cbn. induction ks as [|k ks IHk]; [done|]. cbn. by rewrite IHk.
  - change (length (x :: s)) with (1 + length s)%nat.
    rewrite <- IH by (intros; apply Hcov; by right).
    rewrite <- (sum_list_indicator x ks Hnd) by (apply Hcov; by left).
    rewrite <- sum_list_fmap_plus. f_equal. apply list_fmap_ext. intros _ k _.
    unfold count_of. cbn [List.filter].
    by destruct (bool_decide (x = k)).
Qed.

(** X16. The pie of supplier types accounts for every record of the
    dataset exactly once: the counts of
    [df['Tipo Proveedor'].value_counts()] add up to the number of records,
    whatever the categories are (a missing category counts as recurring),
    and the slices are listed from the most frequent class to the least. *)
Theorem tipo_proveedor_counts_total (categorias : list Cell) :
  sum_list (value_counts (tipo_proveedor <$> categorias)).*2 = length categorias ∧
  StronglySorted (fun a b => (b.2 ≤ a.2)%nat) (value_counts (tipo_proveedor <$> categorias)).
Proof.
  split.
  - unfold value_counts.
    assert (Hf : List.filter (fun k => negb (is_null k)) (tipo_proveedor <$> categorias)
                 = tipo_proveedor <$> categorias).
    { induction categorias as [|c cs IH]; [done|]. rewrite fmap_cons. cbn [List.filter].
      rewrite IH. destruct c as [s| | | | |]; cbn; try done.
      by destruct (PyStr.contains _ _). }
    rewrite Hf, merge_sort_Permutation, <- list_fmap_compose.
    rewrite <- (length_fmap tipo_proveedor categorias).
    apply count_partition; [apply unique_NoDup|].
    intros x Hx. by apply unique_elem_of.
  - unfold value_counts.
    set (R := fun a b : Cell * nat => Is_true (bool_decide (b.2 ≤ a.2)%nat)).
    assert (Transitive R).
    { intros a b c. unfold R. rewrite !Is_true_true, !bool_decide_eq_true. lia. }
    assert (Total R).
    { intros a b. unfold R. rewrite !Is_true_true, !bool_decide_eq_true. lia. }
    apply (StronglySorted_weaken R).
    + intros a b. unfold R. by rewrite Is_true_true, bool_decide_eq_true.
    + by apply StronglySorted_merge_sort.
Qed.

(** ** The average ticket and the pivot against the total *)









(** ** The whole pipeline *)

Ltac elem_here := repeat first [by left | right].

Lemma forallb_impl {A} (p q : A → bool) (l : list A) :
  (∀ x, p x = true → q x = true) → forallb p l = true → forallb q l = true.
Proof. intros H. rewrite !forallb_forall. auto. Qed.

Lemma forallb_filter {A} (p f : A → bool) (l : list A) :
  forallb p l = true → forallb p (List.filter f l) = true.
Proof.
  rewrite !forallb_forall. intros H x Hx. apply H. apply List.filter_In in Hx. tauto.
Qed.

Lemma store_snoc_insert (σ : list DataFrame) df df' :
  <[length σ := df']> (σ ++ [df]) = σ ++ [df'].
Proof. rewrite insert_app_r_alt by lia. by rewrite Nat.sub_diag. Qed.

Lemma cols_fecha_first c rest cols :
  cols_fecha cols = c :: rest → PyStr.lower (PyStr.strip c) = "fecha".
Proof.
  intros Hc. assert (Hin : c ∈ cols_fecha cols) by (rewrite Hc; by left).
  unfold cols_fecha in Hin. rewrite list_elem_of_In, List.filter_In in Hin.
  destruct Hin as [_ Hin]. by apply String.eqb_eq in Hin.
Qed.

Lemma graficable_intro df :
  no_missing "Periodo" df = true → no_missing "Año" df = true →
  no_missing "Mes_Nombre" df = true →
  existsb con_cliente_y_categoria (rows df) = true →
  graficable df = true.
Proof.
  unfold no_missing. rewrite !forallb_forall.
  intros Hp Ha Hm (r & Hr & Hcc)%existsb_exists.
  apply andb_true_iff in Hcc as [Hc Hk].
  unfold graficable. cbn [forallb]. rewrite !andb_true_iff.
  repeat split; apply existsb_exists; exists r; (split; [done|]); auto.
  by rewrite Hm, Ha.
Qed.

Section TableroProps.

Variable month_name : Z → string.
Variable parse_datetime : Cell → option Timestamp.

Local Abbreviation normalizado := (normalizado month_name parse_datetime).

Lemma normalizado_has_column c df k :
  has_column k df = true → has_column k (normalizado c df) = true.
Proof. intros Hk. unfold normalizado. by do 6 apply has_column_set_col_mono. Qed.

Lemma normalizado_has_derived c df k :
  k ∈ ["Fecha"; "Mes"; "Mes_Nombre"; "Año"; "Periodo"] →
  has_column k (normalizado c df) = true.
Proof.
  intros Hk. unfold normalizado.
  repeat (apply elem_of_cons in Hk as [->|Hk]); [..|by apply elem_of_nil in Hk];
    repeat first [apply has_column_set_col_eq | apply has_column_set_col_mono].
Qed.

Lemma normalizado_no_missing c df k g :
  convertible parse_datetime c df = true →
  has_column k (normalizado c df) = true →
  getitem (normalizado c df) k
    = Ok ((fun r => dt g (conv parse_datetime (cell c r))) <$> rows df) →
  (∀ t, g t ≠ VNull) →
  no_missing k (normalizado c df) = true.
Proof.
  intros Hconv Hk Hget Hg.
  assert (Hcol : cell k <$> rows (normalizado c df)
                 = (fun r => dt g (conv parse_datetime (cell c r))) <$> rows df).
  { rewrite (getitem_ok _ _ Hk) in Hget. congruence. }
  unfold no_missing, notnull.
  rewrite <- (forallb_fmap (fun x => negb (is_null x)) (cell k)), Hcol, forallb_fmap.
  revert Hconv. unfold convertible. apply forallb_impl. intros r Hr.
  destruct (conv parse_datetime (cell c r)) as [| | |t| |]; try done. cbn.
  specialize (Hg t). by destruct (g t).
Qed.

Lemma normalizado_numeric c df k :
  c ≠ k → k ∉ ["Fecha"; "Mes"; "Mes_Nombre"; "Año"; "Periodo"] →
  numeric_column k (normalizado c df) = numeric_column k df.
Proof.
  intros Hc Hk. unfold normalizado.
  rewrite !numeric_column_set_col_ne; try done; intros <-; apply Hk; elem_here.
Qed.

Lemma normalizado_datetime c df : datetime_column "Fecha" (normalizado c df) = true.
Proof.
  unfold datetime_column.
  rewrite <- (forallb_fmap is_datetime (cell "Fecha")), normalizado_fecha, forallb_fmap.
  apply forallb_forall. intros r _. apply conv_datetime.
Qed.

(** X20. The dashboard as a whole: for an uploaded table whose first date
    header names a column of dates, with the columns [cliente],
    [categoria] and a numeric [venta], and for a selection that keeps at
    least one record that has a client and a category, lines 96-125 raise
    nothing: the table is normalised in place, the filtered dataset is a
    new frame, the scalars are those of the filtered dataset and the six
    figures are drawn.  At the end the filtered dataset carries the
    ['Tipo Proveedor'] column and the uploaded table does not. *)
Theorem tablero_ok σ l df c rest cs cats t0 t1 :
  σ !! l = Some df →
  cols_fecha (columns df) = c :: rest →
  convertible parse_datetime c df = true →
  has_column "cliente" df = true → has_column "categoria" df = true →
  has_column "venta" df = true → numeric_column "venta" df = true →
  existsb con_cliente_y_categoria (rows (filtrado cs cats t0 t1 (normalizado c df))) = true →
  ∃ figs,
    tablero month_name parse_datetime l cs cats t0 t1 σ
    = (Ok (length σ, escalares (filtrado cs cats t0 t1 (normalizado c df)), figs),
       <[l := normalizado c df]> σ
       ++ [con_tipo_proveedor (filtrado cs cats t0 t1 (normalizado c df))]) ∧
    figs.*1 = ["compras_mensuales"; "ventas_cliente"; "ventas_categoria";
               "totales_anuales"; "comparacion_anual"; "tipo_proveedor"].
Proof.
  intros Hl Hc Hconv Hcli Hcat Hv Hn Hex.
  set (d := normalizado c df). set (kept := filtrado cs cats t0 t1 d).
  assert (Hfecha := cols_fecha_first _ _ _ Hc).
  assert (Hcv : c ≠ "venta") by (intros ->; by vm_compute in Hfecha).
  assert (Hder : ∀ k, k ∈ ["Fecha"; "Mes"; "Mes_Nombre"; "Año"; "Periodo"] →
                      has_column k d = true)
    by (intros; by apply normalizado_has_derived).
  destruct (normalizado_derived month_name parse_datetime c df) as (_ & Hmn & Ha & Hp).
  assert (Hok : dataset_ok kept = true).
  { unfold dataset_ok. cbn [forallb]. unfold kept. rewrite !filtrado_preserves.
    rewrite !andb_true_iff. repeat split;
      try (by apply normalizado_has_column); try (apply Hder; elem_here).
    unfold numeric_column, filtrado. cbn [rows]. apply forallb_filter.
    fold (numeric_column "venta" d). unfold d.
    rewrite normalizado_numeric; [done|done|].
    intros Hin. repeat (apply elem_of_cons in Hin as [?|Hin]; [done|]).
    by apply elem_of_nil in Hin. }
  assert (Hgr : graficable kept = true).
  { apply graficable_intro; try done; unfold no_missing, kept, filtrado; cbn [rows];
      apply forallb_filter.
    - apply (normalizado_no_missing c df "Periodo" el_periodo); try done.
      apply Hder. elem_here.
    - apply (normalizado_no_missing c df "Año" el_año); try done.
      apply Hder. elem_here.
    - apply (normalizado_no_missing c df "Mes_Nombre" (el_mes_nombre month_name));
        try done.
      apply Hder. elem_here. }
  set (σ1 := <[l := d]> σ).
  assert (Hl1 : σ1 !! l = Some d) by (by apply (store_insert_lookup σ l df)).
  assert (Hlen : length σ1 = length σ) by apply length_insert.
  assert (Hl2 : (σ1 ++ [kept]) !! length σ = Some kept)
    by (rewrite <- Hlen; apply store_snoc_lookup).
  destruct (generar_graficos_run (σ1 ++ [kept]) (length σ) kept Hl2 Hok Hgr)
    as (g1 & g2 & g3 & g4 & pt & _ & _ & _ & _ & _ & Hfigs).
  eexists. split.
  - unfold tablero.
    rewrite bind_run, (procesar_datos_run month_name parse_datetime σ l df c rest) by done.
    fold d. fold σ1.
    rewrite bind_run, (filtrar_datos_run σ1 l d cs cats t0 t1 Hl1);
      [|by apply normalizado_has_column|by apply normalizado_has_column
       |apply Hder; elem_here|apply normalizado_datetime].
    fold kept. rewrite Hlen.
    unfold dataset_ok in Hok. apply andb_true_iff in Hok as [Hcols Hnum].
    cbn [forallb] in Hcols. repeat (apply andb_true_iff in Hcols as [? Hcols]).
    rewrite bind_run, (metricas_run _ _ kept Hl2) by done.
    rewrite bind_run, Hfigs. unfold mret, M_ret.
    rewrite <- Hlen at 2. by rewrite store_snoc_insert.
  - done.
Qed.

End TableroProps.

(** X20 at the specification's example, with both clients, both categories
    and the year 2023 selected. *)
Lemma tablero_ok_witness :
  ∃ figs,
    tablero month_name_es no_parse 0%nat [VStr "A"; VStr "B"] todas_categorias
      (fecha 2023 1 1) (fecha 2023 12 31) [df_ejemplo]
    = (Ok (1%nat,
           escalares (filtrado [VStr "A"; VStr "B"] todas_categorias
                        (fecha 2023 1 1) (fecha 2023 12 31) df_normalizado),
           figs),
       <[0%nat := df_normalizado]> [df_ejemplo]
       ++ [con_tipo_proveedor (filtrado [VStr "A"; VStr "B"] todas_categorias
                                 (fecha 2023 1 1) (fecha 2023 12 31) df_normalizado)]) ∧
    figs.*1 = ["compras_mensuales"; "ventas_cliente"; "ventas_categoria";
               "totales_anuales"; "comparacion_anual"; "tipo_proveedor"].
Proof.
  apply (tablero_ok month_name_es no_parse [df_ejemplo] 0%nat df_ejemplo " Fecha " []);
    by_computation.
Defined.

(** ** Which headers name the date column *)

Lemma string_app_cons (x : ascii) (a b : string) : String x a +:+ b = String x (a +:+ b).
Proof. reflexivity. Qed.

Lemma string_app_assoc (a b c : string) : (a +:+ b) +:+ c = a +:+ (b +:+ c).
Proof. induction a as [|x a IH]; [done|]. by rewrite !string_app_cons, IH. Qed.

Lemma string_app_nil_r (a : string) : a +:+ "" = a.
Proof. induction a as [|x a IH]; [done|]. by rewrite string_app_cons, IH. Qed.

Lemma srev_onto_app (s acc : string) : PyStr.srev_onto s acc = PyStr.srev s +:+ acc.
Proof.
  unfold PyStr.srev. revert acc. induction s as [|a s IH]; intros acc; [done|].
  cbn [PyStr.srev_onto]. rewrite (IH (String a acc)), (IH (String a "")).
  by rewrite string_app_assoc.
Qed.

Lemma srev_cons (a : ascii) (s : string) :
  PyStr.srev (String a s) = PyStr.srev s +:+ String a "".
Proof. unfold PyStr.srev at 1. cbn [PyStr.srev_onto]. apply srev_onto_app. Qed.

Lemma srev_app (a b : string) : PyStr.srev (a +:+ b) = PyStr.srev b +:+ PyStr.srev a.
Proof.
  induction a as [|x a IH]; [by rewrite string_app_nil_r|].
  by rewrite string_app_cons, !srev_cons, IH, string_app_assoc.
Qed.

Lemma srev_involutive (s : string) : PyStr.srev (PyStr.srev s) = s.
Proof.
  induction s as [|a s IH]; [done|]. by rewrite srev_cons, srev_app, IH.
Qed.

Lemma blanks_app (a b : string) : blanks (a +:+ b) = blanks a && blanks b.
Proof.
  induction a as [|x a IH]; [done|].
  rewrite string_app_cons. cbn [blanks]. by rewrite IH, andb_assoc.
Qed.

Lemma blanks_srev (s : string) : blanks (PyStr.srev s) = blanks s.
Proof.
  induction s as [|a s IH]; [done|].
  rewrite srev_cons, blanks_app, IH. cbn [blanks]. rewrite andb_true_r. apply andb_comm.
Qed.

Lemma lstrip_blanks (pre s : string) :
  blanks pre = true → PyStr.lstrip (pre +:+ s) = PyStr.lstrip s.
Proof.
  induction pre as [|a pre IH]; [done|]. rewrite string_app_cons. cbn [blanks PyStr.lstrip].
  intros [-> Hb]%andb_true_iff. by apply IH.
Qed.

(** No blank is changed by lower-casing, so a character that lower-cases
    to a letter is no blank. *)
Lemma is_space_lower (a : ascii) :
  PyStr.is_space a = true → PyStr.lower_ascii a = a.
Proof.
  unfold PyStr.is_space, PyStr.lower_ascii.
  destruct (65 <=? nat_of_ascii a)%nat eqn:H1, (nat_of_ascii a <=? 90)%nat eqn:H2;
    cbn; try done.
  apply Nat.leb_le in H1, H2.
  destruct (9 <=? nat_of_ascii a)%nat eqn:H3, (nat_of_ascii a <=? 13)%nat eqn:H4,
    (28 <=? nat_of_ascii a)%nat eqn:H5, (nat_of_ascii a <=? 32)%nat eqn:H6;
    cbn; try done;
    repeat match goal with
           | H : (_ <=? _)%nat = true |- _ => apply Nat.leb_le in H
           | H : (_ <=? _)%nat = false |- _ => apply Nat.leb_gt in H
           end; lia.
Qed.

(** Stripping a word that neither starts nor ends with a blank, padded
    with blanks on both sides, gives the word. *)
Lemma strip_padded (pre post : string) (a z : ascii) (t u : string) :
  blanks pre = true → blanks post = true →
  PyStr.is_space a = false → PyStr.is_space z = false →
  PyStr.srev (String a t) = String z u →
  PyStr.strip (pre +:+ String a t +:+ post) = String a t.
Proof.
  intros Hpre Hpost Ha Hz Hrev. unfold PyStr.strip, PyStr.rstrip.
  rewrite lstrip_blanks by done. rewrite string_app_cons. cbn [PyStr.lstrip]. rewrite Ha.
  rewrite <- string_app_cons.
  rewrite srev_app, lstrip_blanks by (by rewrite blanks_srev).
  rewrite Hrev. cbn [PyStr.lstrip]. rewrite Hz, <- Hrev. apply srev_involutive.
Qed.

(** X21. A header is taken for the date column when it reads [fecha] in
    any mix of upper and lower case, with any blanks (spaces, tabs, line
    ends) before and after it: such a header among the columns is among
    the date columns found by line 15, which then does not fail. *)
Theorem cols_fecha_recognises (pre core post : string) (cols : list string) :
  blanks pre = true → blanks post = true → PyStr.lower core = "fecha" →
  PyStr.lower (PyStr.strip (pre +:+ core +:+ post)) = "fecha" ∧
  (pre +:+ core +:+ post ∈ cols →
   pre +:+ core +:+ post ∈ cols_fecha cols ∧ first (cols_fecha cols) ≠ Raise IndexError).
Proof.
  intros Hpre Hpost Hcore.
  assert (Hstrip : PyStr.strip (pre +:+ core +:+ post) = core).
  { destruct core as [|a1 [|a2 [|a3 [|a4 [|a5 [|a6 core]]]]]]; try done.
    injection Hcore as H1 H2 H3 H4 H5.
    apply (strip_padded pre post a1 a5 _ (String a4 (String a3 (String a2 (String a1 "")))));
      try done.
    - destruct (PyStr.is_space a1) eqn:Hs; [|done].
      rewrite (is_space_lower a1 Hs) in H1. by subst a1.
    - destruct (PyStr.is_space a5) eqn:Hs; [|done].
      rewrite (is_space_lower a5 Hs) in H5. by subst a5. }
  split; [by rewrite Hstrip|].
  intros Hin.
  assert (Hfound : pre +:+ core +:+ post ∈ cols_fecha cols).
  { unfold cols_fecha. rewrite list_elem_of_In, List.filter_In, <- list_elem_of_In.
    split; [done|]. by rewrite Hstrip, Hcore. }
  split; [done|].
  destruct (cols_fecha cols) as [|c rest]; [by apply elem_of_nil in Hfound|done].
Qed.

(** X21 at a header in mixed case with blanks around it. *)
Lemma cols_fecha_recognises_witness :
  PyStr.lower (PyStr.strip ("  " +:+ "FeCHa" +:+ " ")) = "fecha" ∧
  ("  " +:+ "FeCHa" +:+ " " ∈ ["cliente"; "  FeCHa "; "venta"] →
   "  " +:+ "FeCHa" +:+ " " ∈ cols_fecha ["cliente"; "  FeCHa "; "venta"] ∧
   first (cols_fecha ["cliente"; "  FeCHa "; "venta"]) ≠ Raise IndexError).
Proof. apply (cols_fecha_recognises "  " "FeCHa" " "); by_computation. Defined.
